(** * vector-search-example: the two demo scripts [embed.py] and [test.py]

    Both scripts are straight-line call sequences against three outside
    parties: a configuration file, a sentence-embedding model and a Milvus
    vector database.  The scripts are embedded as finite programs over the
    library calls they make ([Prog]); a run is the interpretation of such a
    program by a handler that answers every call or raises.  [Prog] has
    Python's [try] statement, so that the absence of error handling in the
    scripts is a fact about them and not about the language.  Properties of
    the scripts' own control flow are proved for every handler; properties
    that depend on what the database stores are proved against a reference
    handler ([Milvus.lib]) that follows the contracts of the operations.

    Floating-point numbers (embedding entries, distances, clock readings)
    are idealised as rationals. *)

From Stdlib Require Import ZArith QArith String Ascii List DecimalString DecimalZ Lia Lqa.
From stdpp Require Import base option gmap strings list.

Local Open Scope string_scope.
Local Open Scope Z_scope.

(** ** Data model *)

(** A dense embedding / float-vector field value ([ndarray.tolist()]). *)
Definition vector := list Q.

(** [pymilvus.DataType], the members the scripts use. *)
Inductive DataType := INT64 | FLOAT_VECTOR | VARCHAR.

(** [pymilvus.FieldSchema(name, dtype, description, **kwargs)]. *)
Record FieldSchema := mkField {
  name : string;
  dtype : DataType;
  is_primary : bool;
  auto_id : bool;
  dim : option nat;
  max_length : option nat;
  default_value : option string;
  description : string
}.

(** [pymilvus.CollectionSchema(fields, description, **kwargs)]; [kw_auto_id]
    is the optional [auto_id=] keyword. *)
Record CollectionSchema := mkSchema {
  fields : list FieldSchema;
  kw_auto_id : option bool;
  schema_description : string
}.

(** A field value of an entity. *)
Inductive value := VInt (z : Z) | VVec (v : vector) | VStr (s : string).

(** An entity as a mapping from field name to value (a Python dict, in
    insertion order). *)
Definition row := list (string * value).

(** The two shapes [Collection.insert] is given: a list of row dicts
    ([embed.py]) or a list of parallel columns ([test.py]). *)
Inductive entities := Rows (rs : list row) | Columns (cs : list (list value)).

(** One search hit: primary key and distance. *)
Record Hit := mkHit { id : Z; distance : Q }.

(** The result of an insert: count and primary keys. *)
Record MutationResult := mkMutation { insert_count : nat; primary_keys : list Z }.

(** Index and search parameter dicts. *)
Record IndexParams := mkIndexParams {
  index_type : string;
  index_metric_type : string;
  index_extra : list (string * Z)
}.

Record SearchParams := mkSearchParams {
  metric_type : string;
  search_extra : list (string * Z)
}.

(** Exceptions: the ones the libraries raise, and the two the scripts'
    own subscripting can raise. *)
Inductive exn :=
| NoSectionError (section : string)
| NoOptionError (opt section : string)
| MilvusException (message : string)
| ConnectionNotExistException (alias : string)
| SchemaNotReadyException (message : string)
| DataNotMatchException (message : string)
| ParamError (message : string)
| ModelNotFound (path : string)
| IndexError
| KeyError (key : Z)
| KeyErrorStr (key : string).

(** Pieces of a printed line: literal text and the formatted objects. *)
Inductive fragment :=
| FLit (s : string)
| FInt (z : Z)
| FRound (q : Q) (ndigits : Z)
| FVec (v : vector)
| FVecs (vs : list vector)
| FSchema (s : CollectionSchema)
| FRows (rs : list row)
| FMutation (m : MutationResult)
| FResults (r : list (list Hit))
| FHit (h : Hit)
| FNum (q : Q)
| FValue (v : value).

(** ** Library calls *)

(** Every call into [configparser], [pymilvus], [sentence_transformers],
    [random], [time] and [print] that the scripts make.  Collection and
    model objects are handles: the collection name and the model path. *)
Inductive call :=
| Print (line : list fragment)
| NewParser
| CfgRead (file : string)
| CfgGet (section opt : string)
| Connect (alias uri token : string)
| Disconnect (alias : string)
| HasCollection (cname : string)
| DropCollection (cname : string)
| Collection (cname : string) (schema : option CollectionSchema)
| CollDrop (coll : string)
| Insert (coll : string) (data : entities) (partition_name : option string)
| Flush (coll : string)
| CreateIndex (coll : string) (field_name : string) (index_params : IndexParams)
| LoadCollection (coll : string)
| SearchVectors (coll : string) (data : list vector) (anns_field : string)
         (param : SearchParams) (limit : nat) (guarantee_timestamp : Z)
| QueryExpr (coll : string) (expr : string) (output_fields : list string)
| SentenceTransformer (path : string)
| Encode (model : string) (sentences : list string)
| RandInt (lo hi : Z)
| TimeNow.

(** What each call returns. *)
Definition ret (c : call) : Type :=
  match c with
  | Print _ | NewParser | Connect _ _ _ | Disconnect _ | DropCollection _
  | CollDrop _ | Flush _ | CreateIndex _ _ _ | LoadCollection _ => unit
  | CfgRead _ => list string
  | CfgGet _ _ => string
  | HasCollection _ => bool
  | Collection _ _ | SentenceTransformer _ => string
  | Insert _ _ _ => MutationResult
  | SearchVectors _ _ _ _ _ _ => list (list Hit)
  | QueryExpr _ _ _ => list row
  | Encode _ _ => list vector
  | RandInt _ _ => Z
  | TimeNow => Q
  end.

(** ** Programs *)

(** A script is a finite tree of library calls; [Raise] is an exception
    raised by the script's own code (a subscript out of range), and
    [TryExcept body except k] is Python's [try: body / except Exception as e:
    except e], followed by the statements [k]: an exception that leaves
    [body] is handed to [except], whose own exceptions propagate. *)
Inductive Prog (A : Type) : Type :=
| Ret (a : A)
| Raise (e : exn)
| Vis (c : call) (k : ret c -> Prog A)
| TryExcept (X : Type) (body : Prog X) (except : exn -> Prog X) (k : X -> Prog A).
Arguments Ret {A} a.
Arguments Raise {A} e.
Arguments Vis {A} c k.
Arguments TryExcept {A X} body except k.

Fixpoint bind {A B} (p : Prog A) (f : A -> Prog B) : Prog B :=
  match p with
  | Ret a => f a
  | Raise e => Raise e
  | Vis c k => Vis c (fun x => bind (k x) f)
  | TryExcept body except k => TryExcept body except (fun x => bind (k x) f)
  end.

(** A program without any [try] statement, whatever the libraries answer. *)
Inductive unguarded {A} : Prog A -> Prop :=
| unguarded_ret (a : A) : unguarded (Ret a)
| unguarded_raise (e : exn) : unguarded (Raise e)
| unguarded_vis (c : call) (k : ret c -> Prog A) :
    (forall x, unguarded (k x)) -> unguarded (Vis c k).

#[global] Instance Prog_ret : MRet Prog := @Ret.
#[global] Instance Prog_bind : MBind Prog := fun A B f p => bind p f.

Definition invoke (c : call) : Prog (ret c) := Vis c Ret.

Definition print (line : list fragment) : Prog unit := invoke (Print line).
Definition say (s : string) : Prog unit := print [FLit s].

(** [for x in xs: body x] *)
Fixpoint for_each {A} (xs : list A) (body : A -> Prog unit) : Prog unit :=
  match xs with
  | [] => Ret tt
  | x :: xs' => bind (body x) (fun _ => for_each xs' body)
  end.

(** [[body x for x in xs]] *)
Fixpoint comprehension {A B} (xs : list A) (body : A -> Prog B) : Prog (list B) :=
  match xs with
  | [] => Ret []
  | x :: xs' => bind (body x) (fun y => bind (comprehension xs' body) (fun ys => Ret (y :: ys)))
  end.

(** [for x in xs: body x], where the body updates a variable [s] *)
Fixpoint for_fold {A S} (xs : list A) (s : S) (body : A -> S -> Prog S) : Prog S :=
  match xs with
  | [] => Ret s
  | x :: xs' => bind (body x s) (fun s' => for_fold xs' s' body)
  end.

(** [xs[0]] *)
Definition subscript0 {A} (xs : list A) : Prog A :=
  match xs with
  | [] => Raise IndexError
  | x :: _ => Ret x
  end.

(** [d[key]] on a dict with integer keys *)
Definition getitem (d : gmap Z string) (key : Z) : Prog string :=
  match d !! key with
  | Some v => Ret v
  | None => Raise (KeyError key)
  end.

(** Lookup in a row dict. *)
Fixpoint assoc (key : string) (r : row) : option value :=
  match r with
  | [] => None
  | (k, v) :: r' => if String.eqb k key then Some v else assoc key r'
  end.

(** [item[key]] on a row dict *)
Definition item_get (item : row) (key : string) : Prog value :=
  match assoc key item with
  | Some v => Ret v
  | None => Raise (KeyErrorStr key)
  end.

(** [dict(pairs)]: later pairs overwrite earlier ones. *)
Definition dict (pairs : list (Z * string)) : gmap Z string :=
  fold_left (fun m kv => <[kv.1 := kv.2]> m) pairs ∅.

(** [str(z)] for a Python int, as an f-string renders it. *)
Definition str_of_int (z : Z) : string := NilZero.string_of_int (Z.to_int z).

(** ** embed.py *)

Module Embed.

Definition fields : list FieldSchema :=
  [ mkField "id" INT64 true true None None None "";
    mkField "ristodata" FLOAT_VECTOR false false (Some 384%nat) None None "" ].

Definition schema : CollectionSchema :=
  mkSchema fields None "demo for inserting BERT vectors".

Definition collection_name : string := "ristobot".

Definition sentences : list string :=
  [ "This is an example sentence";
    "Each string here gets embedded";
    "The embeddings can then be indexed using Milvus" ].

(** [[{"ristodata": vector.tolist()} for vector in sentence_embeddings]] *)
Definition entities (sentence_embeddings : list vector) : list row :=
  map (fun vector => [("ristodata", VVec vector)]) sentence_embeddings.

(** The module body, top to bottom. *)
Definition script : Prog unit :=
  say "STEP  #1.1 Connect to the Milvus server";;
  invoke NewParser;;
  invoke (CfgRead "config.ini");;
  milvus_uri ← invoke (CfgGet "example" "uri");
  token ← invoke (CfgGet "example" "token");
  invoke (Connect "default" milvus_uri token);;
  say "STEP  #1.2 Define the collection schema";;
  print [FSchema schema];;
  say "STEP  #1.3 Specify the collection name";;
  say "STEP  #1.4 Drop the collection if it exists";;
  exists_ ← invoke (HasCollection collection_name);
  (if exists_ : bool
   then collection ← invoke (Collection collection_name None);
        invoke (CollDrop collection)
   else Ret tt);;
  say "STEP  #1.5 Create the collection";;
  collection ← invoke (Collection collection_name (Some schema));
  say "STEP  #1.6 Load the SentenceTransformer model";;
  model ← invoke (SentenceTransformer "/pyapp/models/multi-qa-MiniLM-L6-cos-v1/");
  say "STEP  #1.7 Generate sentence embeddings using the SentenceTransformer model";;
  sentence_embeddings ← invoke (Encode model sentences);
  print [FVecs sentence_embeddings];;
  say "STEP  #1.8 prepare data";;
  for_each sentence_embeddings (fun vector => print [FVec vector]);;
  print [FRows (entities sentence_embeddings)];;
  say "STEP  #1.9 insert";;
  insert_result ← invoke (Insert collection (Rows (entities sentence_embeddings))
                                 (Some collection_name));
  print [FMutation insert_result];;
  say "STEP  #1.10 Flush Collection";;
  invoke (Flush collection);;
  say "STEP  #1.11 disconnect";;
  invoke (Disconnect "default").

End Embed.

(** ** test.py *)

Module Test.

Definition bert_model_dir : string := "/pyapp/models/multi-qa-MiniLM-L6-cos-v1/".
Definition collection_name : string := "book".

Definition dim : nat := 384.
Definition book_id_field : FieldSchema :=
  mkField "book_id" INT64 true false None None None "customized primary id".
Definition word_count_field : FieldSchema :=
  mkField "word_count" INT64 false false None None None "word count".
Definition book_intro_field : FieldSchema :=
  mkField "book_intro" FLOAT_VECTOR false false (Some dim) None None "".
Definition sentence_field : FieldSchema :=
  mkField "sentence" VARCHAR false false None (Some 1000%nat) (Some "") "book sentence".
Definition schema : CollectionSchema :=
  mkSchema [book_id_field; word_count_field; book_intro_field; sentence_field]
           (Some false) "my first book collection".

Definition nb : Z := 3.
Definition insert_rounds : Z := 2.

Definition sentences : list string := ["mela"; "pera"; "banana"].

(** [list(range(nb))] *)
Definition book_ids : list Z := seqZ 0 nb.

(** [dict(zip(book_ids, sentences))] *)
Definition id_sentence_map : gmap Z string := dict (zip book_ids sentences).

(** [[book_ids, word_counts, book_intros, sentences]] *)
Definition entities (word_counts : list Z) (book_intros : list vector) : list (list value) :=
  [ map VInt book_ids; map VInt word_counts; map VVec book_intros; map VStr sentences ].

Definition index_params : IndexParams := mkIndexParams "AUTOINDEX" "L2" [].

(** What is encoded for the search is [search_str], "pera"; the script
    names the result [mela_embedding] and its comment speaks of "mela". *)
Definition search_str : string := "pera".
Definition search_params : SearchParams := mkSearchParams "L2" [("level", 2)].
Definition topk : nat := 1.

(** [print(f"Succeed in {round(t1-t0, 4)} seconds!")] *)
Definition succeed_in (t0 t1 : Q) : Prog unit :=
  print [FLit "Succeed in "; FRound (t1 - t0)%Q 4; FLit " seconds!"].

(** The body of [for hit in results[0]]; the loop variable it updates is
    [matched_book_id]. *)
Definition hit_body (hit : Hit) (matched_book_id : Z) : Prog Z :=
  print [FLit "hit id: "; FLit " "; FHit hit];;
  print [FLit "hit id: "; FLit " "; FInt (id hit)];;
  print [FLit "hit distance: "; FLit " "; FNum (distance hit)];;
  let matched_book_id := id hit in
  matched_sentence ← getitem id_sentence_map matched_book_id;
  print [FLit "Matched Sentence: "; FLit matched_sentence];;
  Ret matched_book_id.

(** The body of [for item in res]. *)
Definition item_body (item : row) : Prog unit :=
  b ← item_get item "book_id";
  w ← item_get item "word_count";
  s ← item_get item "sentence";
  print [FLit "book_id: "; FValue b; FLit ",  word_count: "; FValue w;
         FLit " ,  sentence: "; FValue s];;
  invoke (Disconnect "default").

(** Everything after the search call returned [results]. *)
Definition after_search (collection : string) (t0 t1 : Q) (results : list (list Hit))
  : Prog unit :=
  print [FLit "Result:"; FResults results];;
  print [FLit "search latency: "; FRound (t1 - t0)%Q 4; FLit " seconds!"];;
  hits ← subscript0 results;
  matched_book_id ← for_fold hits 0 hit_body;
  let given_id := matched_book_id in
  res ← invoke (QueryExpr collection ("book_id == " ++ str_of_int given_id)
                          ["book_id"; "word_count"; "sentence"]);
  for_each res item_body.

(** The [__main__] block, top to bottom. *)
Definition script : Prog unit :=
  invoke NewParser;;
  invoke (CfgRead "config.ini");;
  milvus_uri ← invoke (CfgGet "milvus_ristobot" "uri");
  token ← invoke (CfgGet "milvus_ristobot" "token");
  invoke (Connect "default" milvus_uri token);;
  print [FLit "Connecting to DB: "; FLit milvus_uri];;
  check_collection ← invoke (HasCollection collection_name);
  (if check_collection : bool
   then invoke (DropCollection collection_name)
   else Ret tt);;
  say "Success!";;
  print [FLit "Creating ristobot collection: "; FLit collection_name];;
  collection ← invoke (Collection collection_name (Some schema));
  print [FLit "Schema: "; FSchema schema];;
  say "Success!";;
  print [FLit "Inserting "; FInt (nb * insert_rounds); FLit " entities... "];;
  say "STEP   Generate sentence embeddings using the SentenceTransformer model";;
  model ← invoke (SentenceTransformer bert_model_dir);
  sentence_embeddings ← invoke (Encode model sentences);
  say "STEP  #1.8 prepare data";;
  word_counts ← comprehension (seqZ 0 nb) (fun _ => invoke (RandInt 1 100));
  let book_intros := sentence_embeddings in
  t0 ← invoke TimeNow;
  ins_resp ← invoke (Insert collection (Columns (entities word_counts book_intros)) None);
  t1 ← invoke TimeNow;
  succeed_in t0 t1;;
  say "Flushing...";;
  start_flush ← invoke TimeNow;
  invoke (Flush collection);;
  end_flush ← invoke TimeNow;
  succeed_in start_flush end_flush;;
  t0 ← invoke TimeNow;
  say "Building AutoIndex...";;
  invoke (CreateIndex collection (name book_intro_field) index_params);;
  t1 ← invoke TimeNow;
  succeed_in t0 t1;;
  t0 ← invoke TimeNow;
  say "Loading collection...";;
  invoke (LoadCollection collection);;
  t1 ← invoke TimeNow;
  succeed_in t0 t1;;
  encoded ← invoke (Encode model [search_str]);
  mela_embedding ← subscript0 encoded;
  let search_vec := [mela_embedding] in
  print [FLit "Searching for '"; FLit search_str; FLit "'..."];;
  t0 ← invoke TimeNow;
  results ← invoke (SearchVectors collection search_vec (name book_intro_field)
                                  search_params topk 1);
  t1 ← invoke TimeNow;
  after_search collection t0 t1 results.

End Test.

(** ** Runs *)

(** The answer of a library to one call. *)
Inductive reply (A : Type) := Ok (a : A) | Exn (e : exn).
Arguments Ok {A} a.
Arguments Exn {A} e.

(** How a run ends. *)
Inductive outcome (A : Type) := Done (a : A) | Raised (e : exn).
Arguments Done {A} a.
Arguments Raised {A} e.

(** One call with its answer, as it happened. *)
Record entry := Entry { e_call : call; e_reply : reply (ret e_call) }.

(** The outside world: answers each call and moves to a new state. *)
Definition handler (W : Type) := forall c : call, W -> reply (ret c) * W.

(** Python's sequential evaluation: the first exception, from a call or
    from the script, ends the run.  A run yields how it ended, the final
    state of the world and the calls made so far, in order. *)
Fixpoint run_from {W A} (h : handler W) (p : Prog A) (w : W) (log : list entry)
  : outcome A * W * list entry :=
  match p with
  | Ret a => (Done a, w, log)
  | Raise e => (Raised e, w, log)
  | Vis c k =>
      match h c w with
      | (Ok x, w1) => run_from h (k x) w1 (log ++ [Entry c (Ok x)])%list
      | (Exn e, w1) => (Raised e, w1, (log ++ [Entry c (Exn e)])%list)
      end
  | TryExcept body except k =>
      match run_from h body w log with
      | (Done x, w1, l1) => run_from h (k x) w1 l1
      | (Raised e, w1, l1) =>
          match run_from h (except e) w1 l1 with
          | (Done x, w2, l2) => run_from h (k x) w2 l2
          | (Raised e', w2, l2) => (Raised e', w2, l2)
          end
      end
  end.

Definition run {W A} (h : handler W) (p : Prog A) (w : W) : outcome A * W * list entry :=
  run_from h p w [].

Definition outcome_of {W A} (r : outcome A * W * list entry) : outcome A := r.1.1.
Definition final {W A} (r : outcome A * W * list entry) : W := r.1.2.
Definition log_of {W A} (r : outcome A * W * list entry) : list entry := r.2.

(** The run ended without an exception. *)
Definition completes {W A} (r : outcome A * W * list entry) : Prop :=
  exists a, outcome_of r = Done a.

(** A library whose vector search finds nothing: every search is answered
    with an empty hit list per query vector; all other calls go to [h]. *)
Definition finding_nothing {W} (h : handler W) : handler W := fun c =>
  match c return W -> reply (ret c) * W with
  | SearchVectors _ data _ _ _ _ => fun w => (Ok (map (fun _ => []) data), w)
  | c' => h c'
  end.

(** ** The outside world the scripts run against

    The Python libraries are not part of the repository.  This module fixes
    a reference behaviour for them: the configuration parser, the embedding
    model, the random source, the clock and the Milvus server, each
    following the contract the specification gives for it. *)

Module Milvus.

(** A collection on the server. *)
Record Coll := mkColl {
  coll_schema : CollectionSchema;
  coll_rows : list row;                       (* flushed: visible to reads *)
  coll_pending : list row;                    (* inserted, not yet flushed *)
  coll_index : option (string * IndexParams);
  coll_loaded : bool
}.

(** Everything outside the script. *)
Record World := mkWorld {
  files : gmap string (gmap string (gmap string string));  (* ini files on disk *)
  parser : gmap string (gmap string string);               (* the parser object *)
  endpoint_ok : string -> string -> bool;     (* does the service accept uri, token *)
  connections : gset string;                  (* registered connection aliases *)
  collections : gmap string Coll;
  partition_ok : string -> string -> bool;    (* collection, partition: known? *)
  next_auto_id : Z;
  model_files : gmap string (string -> vector);  (* model directories on disk *)
  random_source : nat -> Z;
  random_pos : nat;
  clock : nat -> Q;
  clock_pos : nat;
  stdout : list (list fragment);
  tie_break : Z -> Z -> bool   (* at equal distance: the first key before the second? *)
}.

Definition set_parser (p : gmap string (gmap string string)) (w : World) : World :=
  mkWorld (files w) p (endpoint_ok w) (connections w) (collections w) (partition_ok w)
          (next_auto_id w) (model_files w) (random_source w) (random_pos w)
          (clock w) (clock_pos w) (stdout w) (tie_break w).

Definition set_connections (c : gset string) (w : World) : World :=
  mkWorld (files w) (parser w) (endpoint_ok w) c (collections w) (partition_ok w)
          (next_auto_id w) (model_files w) (random_source w) (random_pos w)
          (clock w) (clock_pos w) (stdout w) (tie_break w).

Definition set_collections (c : gmap string Coll) (w : World) : World :=
  mkWorld (files w) (parser w) (endpoint_ok w) (connections w) c (partition_ok w)
          (next_auto_id w) (model_files w) (random_source w) (random_pos w)
          (clock w) (clock_pos w) (stdout w) (tie_break w).

Definition set_next_auto_id (n : Z) (w : World) : World :=
  mkWorld (files w) (parser w) (endpoint_ok w) (connections w) (collections w)
          (partition_ok w) n (model_files w) (random_source w) (random_pos w)
          (clock w) (clock_pos w) (stdout w) (tie_break w).

Definition set_random_pos (n : nat) (w : World) : World :=
  mkWorld (files w) (parser w) (endpoint_ok w) (connections w) (collections w)
          (partition_ok w) (next_auto_id w) (model_files w) (random_source w) n
          (clock w) (clock_pos w) (stdout w) (tie_break w).

Definition set_clock_pos (n : nat) (w : World) : World :=
  mkWorld (files w) (parser w) (endpoint_ok w) (connections w) (collections w)
          (partition_ok w) (next_auto_id w) (model_files w) (random_source w)
          (random_pos w) (clock w) n (stdout w) (tie_break w).

Definition set_stdout (o : list (list fragment)) (w : World) : World :=
  mkWorld (files w) (parser w) (endpoint_ok w) (connections w) (collections w)
          (partition_ok w) (next_auto_id w) (model_files w) (random_source w)
          (random_pos w) (clock w) (clock_pos w) o (tie_break w).

(** *** Configuration file *)

(** Modelled from the spec: [RawConfigParser.read], the ini-style
    configuration file of sections with keys; a file that is absent is
    skipped, a file that is present is merged over what was read before. *)
Definition cfg_read (file : string) (w : World) : reply (list string) * World :=
  match files w !! file with
  | Some ini =>
      (Ok [file],
       set_parser (union_with (fun new old => Some (new ∪ old)) ini (parser w)) w)
  | None => (Ok [], w)
  end.

(** Modelled from the spec: [RawConfigParser.get], which raises on a
    missing section or key. *)
Definition cfg_get (section opt : string) (w : World) : reply string * World :=
  match parser w !! section with
  | None => (Exn (NoSectionError section), w)
  | Some sec =>
      match sec !! opt with
      | None => (Exn (NoOptionError opt section), w)
      | Some v => (Ok v, w)
      end
  end.

(** *** Connector *)

(** Modelled from the spec: [connections.connect]; fails if the endpoint
    is unreachable or the token is invalid, otherwise registers the alias. *)
Definition connect (alias uri token : string) (w : World) : reply unit * World :=
  if endpoint_ok w uri token
  then (Ok tt, set_connections ({[alias]} ∪ connections w) w)
  else (Exn (MilvusException "connect failed"), w).

(** Modelled from the spec: [connections.disconnect]; closes the named
    connection, and does nothing for an alias that is not registered. *)
Definition disconnect (alias : string) (w : World) : reply unit * World :=
  (Ok tt, set_connections (connections w ∖ {[alias]}) w).

(** Every collection operation goes through the connection ["default"]. *)
Definition connected (w : World) : bool := bool_decide ("default" ∈ connections w).

Definition with_connection {A} (op : World -> reply A * World) (w : World)
  : reply A * World :=
  if connected w then op w else (Exn (ConnectionNotExistException "default"), w).

(** Operations on an existing collection. *)
Definition with_collection {A} (coll : string) (op : Coll -> World -> reply A * World)
  (w : World) : reply A * World :=
  with_connection (fun w =>
    match collections w !! coll with
    | Some c => op c w
    | None => (Exn (MilvusException "collection not found"), w)
    end) w.

Definition put_collection (coll : string) (c : Coll) (w : World) : World :=
  set_collections (<[coll := c]> (collections w)) w.

(** *** Collection manager *)

(** Modelled from the spec: [has_collection(name) -> bool]. *)
Definition has_collection (cname : string) : World -> reply bool * World :=
  with_connection (fun w => (Ok (bool_decide (is_Some (collections w !! cname))), w)).

(** Modelled from the spec: [drop_collection(name)], an error if the
    collection is absent. *)
Definition drop_collection (cname : string) : World -> reply unit * World :=
  with_collection cname (fun _ w =>
    (Ok tt, set_collections (delete cname (collections w)) w)).

#[global] Instance DataType_eq_dec : EqDecision DataType.
Proof. solve_decision. Defined.
#[global] Instance FieldSchema_eq_dec : EqDecision FieldSchema.
Proof. solve_decision. Defined.
#[global] Instance CollectionSchema_eq_dec : EqDecision CollectionSchema.
Proof. solve_decision. Defined.

(** A field declaration is usable: a vector field has a positive
    dimension, a string field a maximal length. *)
Definition field_ok (f : FieldSchema) : bool :=
  match dtype f with
  | INT64 => true
  | FLOAT_VECTOR => match dim f with Some d => Nat.ltb 0 d | None => false end
  | VARCHAR => match max_length f with Some _ => true | None => false end
  end.

(** A schema has exactly one primary-key field. *)
Definition schema_ok (s : CollectionSchema) : bool :=
  Nat.eqb (length (List.filter is_primary (fields s))) 1
  && forallb field_ok (fields s).

(** Modelled from the spec: [create_collection(name, schema) -> handle];
    [Collection(name, schema=schema)] creates the collection when it is
    absent and raises when one exists under another schema. *)
Definition create_collection (cname : string) (s : CollectionSchema)
  : World -> reply string * World :=
  with_connection (fun w =>
    match collections w !! cname with
    | Some c =>
        if decide (coll_schema c = s) then (Ok cname, w)
        else (Exn (SchemaNotReadyException "schema differs from the existing one"), w)
    | None =>
        if schema_ok s
        then (Ok cname, put_collection cname (mkColl s [] [] None false) w)
        else (Exn (SchemaNotReadyException "invalid schema"), w)
    end).

(** Modelled from the spec: [Collection(name)] without a schema binds to an
    existing collection and raises when there is none. *)
Definition get_collection (cname : string) : World -> reply string * World :=
  with_connection (fun w =>
    match collections w !! cname with
    | Some _ => (Ok cname, w)
    | None => (Exn (SchemaNotReadyException "collection does not exist"), w)
    end).

(** *** Ingestor *)

(** Whether the primary key is generated by the server. *)
Definition schema_auto_id (s : CollectionSchema) : bool :=
  match kw_auto_id s with Some b => b | None => false end
  || existsb (fun f => is_primary f && auto_id f) (fields s).

(** The name of the primary-key field. *)
Definition primary_name (s : CollectionSchema) : option string :=
  name <$> head (List.filter is_primary (fields s)).

(** The fields a caller supplies: all but a generated primary key. *)
Definition supplied_fields (s : CollectionSchema) : list FieldSchema :=
  List.filter (fun f => negb (is_primary f && schema_auto_id s)) (fields s).

(** A value fits a field: 64-bit integers, vectors of exactly the declared
    dimension, strings within the declared length. *)
Definition value_ok (f : FieldSchema) (v : value) : bool :=
  match dtype f, v with
  | INT64, VInt z => (- 2 ^ 63 <=? z) && (z <? 2 ^ 63)
  | FLOAT_VECTOR, VVec x =>
      match dim f with Some d => Nat.eqb (length x) d | None => false end
  | VARCHAR, VStr s =>
      match max_length f with Some m => Nat.leb (String.length s) m | None => false end
  | _, _ => false
  end.

(** A row dict carries exactly the supplied fields, each with a fitting value. *)
Definition row_ok (fs : list FieldSchema) (r : row) : bool :=
  Nat.eqb (length r) (length fs)
  && forallb (fun f => match assoc (name f) r with
                       | Some v => value_ok f v
                       | None => false
                       end) fs.

(** Row [i] of parallel columns. *)
Definition nth_row (names : list string) (cols : list (list value)) (i : nat) : option row :=
  zip names <$> mapM (fun c : list value => c !! i) cols.

(** Parallel columns as rows: one column per supplied field, all of one length. *)
Definition rows_of_columns (fs : list FieldSchema) (cols : list (list value))
  : option (list row) :=
  match cols with
  | [] => None
  | c0 :: _ =>
      if Nat.eqb (length cols) (length fs)
         && forallb (fun c => Nat.eqb (length c) (length c0)) cols
      then mapM (nth_row (map name fs) cols) (seq 0 (length c0))
      else None
  end.

Definition rows_of (fs : list FieldSchema) (data : entities) : option (list row) :=
  match data with
  | Rows rs => Some rs
  | Columns cs => rows_of_columns fs cs
  end.

Definition is_vector (t : DataType) : bool :=
  match t with FLOAT_VECTOR => true | _ => false end.

(** The integer stored under [key]. *)
Definition int_field (key : string) (r : row) : option Z :=
  match assoc key r with
  | Some (VInt z) => Some z
  | _ => None
  end.

(** The rows to store and their primary keys: generated from [next] on when
    the schema says so, else read from the rows. *)
Definition prepare_rows (s : CollectionSchema) (data : entities) (next : Z)
  : option (list row * list Z) :=
  rs ← rows_of (supplied_fields s) data;
  pk ← primary_name s;
  if forallb (row_ok (supplied_fields s)) rs
  then
    if schema_auto_id s
    then let keys := seqZ next (Z.of_nat (length rs)) in
         Some (zip_with (fun k r => (pk, VInt k) :: r) keys rs, keys)
    else keys ← mapM (int_field pk) rs; Some (rs, keys)
  else None.

(** Modelled from the spec: [insert(entities) -> insert_result]; the result
    carries the generated or echoed primary keys; entities that do not fit
    the schema (field set, types, vector dimension) are refused.  Whether the
    server knows the partition the caller names is the world's [partition_ok]. *)
Definition insert (coll : string) (data : entities) (partition_name : option string)
  : World -> reply MutationResult * World :=
  with_collection coll (fun c w =>
    if match partition_name with Some p => partition_ok w coll p | None => true end
    then
      match prepare_rows (coll_schema c) data (next_auto_id w) with
      | Some (rs, keys) =>
          (Ok (mkMutation (length rs) keys),
           set_next_auto_id
             (if schema_auto_id (coll_schema c)
              then next_auto_id w + Z.of_nat (length rs) else next_auto_id w)
             (put_collection coll
                (mkColl (coll_schema c) (coll_rows c) (coll_pending c ++ rs)
                        (coll_index c) (coll_loaded c)) w))
      | None => (Exn (DataNotMatchException "entities do not fit the schema"), w)
      end
    else (Exn (MilvusException "partition not found"), w)).

(** Modelled from the spec: [flush()] makes the inserted entities visible
    to subsequent reads. *)
Definition flush (coll : string) : World -> reply unit * World :=
  with_collection coll (fun c w =>
    (Ok tt,
     put_collection coll
       (mkColl (coll_schema c) (coll_rows c ++ coll_pending c) []
               (coll_index c) (coll_loaded c)) w)).

(** *** Indexer / loader *)

Definition vector_field (s : CollectionSchema) (field_name : string) : option FieldSchema :=
  head (List.filter (fun f => String.eqb (name f) field_name && is_vector (dtype f))
                    (fields s)).

(** Modelled from the spec: [create_index(field_name, params)] builds a
    similarity index over the vector field. *)
Definition create_index (coll field_name : string) (p : IndexParams)
  : World -> reply unit * World :=
  with_collection coll (fun c w =>
    match vector_field (coll_schema c) field_name with
    | Some _ =>
        (Ok tt,
         put_collection coll
           (mkColl (coll_schema c) (coll_rows c) (coll_pending c)
                   (Some (field_name, p)) (coll_loaded c)) w)
    | None => (Exn (MilvusException "cannot index this field"), w)
    end).

(** Modelled from the spec: [load()] brings the collection into a
    queryable state; it needs the index. *)
Definition load (coll : string) : World -> reply unit * World :=
  with_collection coll (fun c w =>
    match coll_index c with
    | Some _ =>
        (Ok tt,
         put_collection coll
           (mkColl (coll_schema c) (coll_rows c) (coll_pending c)
                   (coll_index c) true) w)
    | None => (Exn (MilvusException "index not found"), w)
    end).

(** *** Query engine *)

(** The L2 metric, as the server ranks by it: the sum of squared
    differences. *)
Definition l2 (a b : vector) : Q :=
  fold_right Qplus 0%Q (zip_with (fun x y => ((x - y) * (x - y))%Q) a b).

(** Modelled from the spec: a ranked list of hits, by ascending distance.
    The spec leaves the order of two hits at the same distance open: [tie]
    says, by their keys, whether the first goes before the second. *)
Definition ranks_before (tie : Z -> Z -> bool) (h x : Hit) : bool :=
  if Qle_bool (distance h) (distance x)
  then if Qle_bool (distance x) (distance h) then tie (id h) (id x) else true
  else false.

Fixpoint rank_insert (tie : Z -> Z -> bool) (h : Hit) (l : list Hit) : list Hit :=
  match l with
  | [] => [h]
  | x :: l' => if ranks_before tie h x then h :: l else x :: rank_insert tie h l'
  end.

Definition rank (tie : Z -> Z -> bool) (l : list Hit) : list Hit :=
  fold_right (rank_insert tie) [] l.

(** The hit a stored row gives for a query vector. *)
Definition hit_of (pk anns_field : string) (q : vector) (r : row) : option Hit :=
  match int_field pk r, assoc anns_field r with
  | Some i, Some (VVec v) => Some (mkHit i (l2 q v))
  | _, _ => None
  end.

Definition top_hits (tie : Z -> Z -> bool) (pk anns_field : string) (limit : nat)
  (rows : list row) (q : vector) : list Hit :=
  take limit (rank tie (omap (hit_of pk anns_field q) rows)).

(** Modelled from the spec: [search(vector, field, params, limit) -> ranked
    list of (id, distance)], one ranked list per query vector, with top-k
    semantics; the collection must be loaded, the metric must be the
    index's and the query vectors must have the field's dimension.  The
    spec leaves the order of hits at the same distance open: it is the
    world's [tie_break]. *)
Definition search (coll : string) (data : list vector) (anns_field : string)
  (param : SearchParams) (limit : nat) : World -> reply (list (list Hit)) * World :=
  with_collection coll (fun c w =>
    match coll_loaded c, coll_index c, vector_field (coll_schema c) anns_field,
          primary_name (coll_schema c) with
    | true, Some (indexed, ip), Some f, Some pk =>
        if String.eqb indexed anns_field
           && String.eqb (metric_type param) (index_metric_type ip)
           && forallb (fun q => value_ok f (VVec q)) data
        then (Ok (map (top_hits (tie_break w) pk anns_field limit (coll_rows c)) data), w)
        else (Exn (MilvusException "search parameters do not fit the collection"), w)
    | _, _, _, _ => (Exn (MilvusException "collection not loaded"), w)
    end).

(** The text up to the first space, and the text after that space. *)
Fixpoint until_space (s : string) : string * string :=
  match s with
  | EmptyString => (EmptyString, EmptyString)
  | String c s' =>
      if Ascii.eqb c " "%char then (EmptyString, s')
      else let (a, b) := until_space s' in (String c a, b)
  end.

(** A filter expression of the shape [<field> == <integer>]. *)
Definition parse_expr (expr : string) : option (string * Z) :=
  let (field, rest) := until_space expr in
  match rest with
  | String "="%char (String "="%char (String " "%char num)) =>
      (fun i => (field, Z.of_int i)) <$> NilZero.int_of_string num
  | _ => None
  end.

(** The filter [<field> == z] on a row. *)
Definition field_is (field : string) (z : Z) (r : row) : bool :=
  match int_field field r with
  | Some z' => Z.eqb z' z
  | None => false
  end.

(** The requested fields of a row. *)
Definition project (output_fields : list string) (r : row) : row :=
  omap (fun o => (fun v => (o, v)) <$> assoc o r) output_fields.

Definition has_field (s : CollectionSchema) (field_name : string) : bool :=
  existsb (fun f => String.eqb (name f) field_name) (fields s).

(** Modelled from the spec: [query(filter_expression, output_fields) -> list
    of rows]: the visible rows that satisfy the filter, restricted to the
    requested fields. *)
Definition query (coll expr : string) (output_fields : list string)
  : World -> reply (list row) * World :=
  with_collection coll (fun c w =>
    if coll_loaded c
    then
      match parse_expr expr with
      | Some (field, z) =>
          if has_field (coll_schema c) field
             && forallb (has_field (coll_schema c)) output_fields
          then (Ok (map (project output_fields)
                        (List.filter (field_is field z) (coll_rows c))), w)
          else (Exn (MilvusException "unknown field"), w)
      | None => (Exn (MilvusException "cannot parse expression"), w)
      end
    else (Exn (MilvusException "collection not loaded"), w)).

(** *** Embedder *)

(** Modelled from the spec: the model is loaded from a local directory;
    loading fails when the model files are missing. *)
Definition sentence_transformer (path : string) (w : World) : reply string * World :=
  match model_files w !! path with
  | Some _ => (Ok path, w)
  | None => (Exn (ModelNotFound path), w)
  end.

(** Modelled from the spec: [encode(list_of_strings) ->
    list_of_fixed_length_vectors], order-preserving, same length as the
    input; each vector is determined by the model and the input string. *)
Definition encode (embed : string -> vector) (sentences : list string) : list vector :=
  map embed sentences.

Definition model_encode (model : string) (sentences : list string) (w : World)
  : reply (list vector) * World :=
  match model_files w !! model with
  | Some embed => (Ok (encode embed sentences), w)
  | None => (Exn (ModelNotFound model), w)
  end.

(** *** Random source and clock *)

(** [random.randint(lo, hi)]: an integer of the closed range, read off the
    world's random source. *)
Definition randint (lo hi : Z) (w : World) : reply Z * World :=
  if hi <? lo then (Exn (ParamError "empty range for randint"), w)
  else (Ok (lo + random_source w (random_pos w) mod (hi - lo + 1)),
        set_random_pos (S (random_pos w)) w).

(** [time.time()] *)
Definition time_now (w : World) : reply Q * World :=
  (Ok (clock w (clock_pos w)), set_clock_pos (S (clock_pos w)) w).

(** *** The handler *)

Definition lib : handler World := fun c =>
  match c return World -> reply (ret c) * World with
  | Print line => fun w => (Ok tt, set_stdout (stdout w ++ [line]) w)
  | NewParser => fun w => (Ok tt, set_parser ∅ w)
  | CfgRead file => cfg_read file
  | CfgGet section opt => cfg_get section opt
  | Connect alias uri token => connect alias uri token
  | Disconnect alias => disconnect alias
  | HasCollection cname => has_collection cname
  | DropCollection cname => drop_collection cname
  | Collection cname None => get_collection cname
  | Collection cname (Some s) => create_collection cname s
  | CollDrop coll => drop_collection coll
  | Insert coll data partition_name => insert coll data partition_name
  | Flush coll => flush coll
  | CreateIndex coll field_name p => create_index coll field_name p
  | LoadCollection coll => load coll
  | SearchVectors coll data anns_field param limit _ => search coll data anns_field param limit
  | QueryExpr coll expr output_fields => query coll expr output_fields
  | SentenceTransformer path => sentence_transformer path
  | Encode model sentences => model_encode model sentences
  | RandInt lo hi => randint lo hi
  | TimeNow => time_now
  end.

End Milvus.

(** ** Reading a run's log *)

(** An entry for a call that returned. *)
Definition returned (c : call) (x : ret c) : entry := Entry c (Ok x).

(** An entry for a call that raised. *)
Definition raised (c : call) (e : exn) : entry := Entry c (Exn e).

Definition printed (line : list fragment) : entry := returned (Print line) tt.

(** The calls of a log, without their answers. *)
Definition calls (log : list entry) : list call := map e_call log.

(** The lines a run printed. *)
Definition printed_lines (log : list entry) : list (list fragment) :=
  omap (fun c => match c with Print line => Some line | _ => None end) (calls log).

Definition is_disconnect (alias : string) (c : call) : bool :=
  match c with Disconnect a => String.eqb a alias | _ => false end.

Definition is_insert (c : call) : bool :=
  match c with Insert _ _ _ => true | _ => false end.


(** Creating (or binding with a schema to) the collection [cname]. *)
Definition is_create (cname : string) (c : call) : bool :=
  match c with
  | Collection n (Some _) => String.eqb n cname
  | _ => false
  end.

(** A call made by the body of the hit-resolution loop of [test.py]. *)
Definition is_hit_print (c : call) : bool :=
  match c with
  | Print (FLit s :: _) =>
      String.eqb s "hit id: " || String.eqb s "hit distance: "
      || String.eqb s "Matched Sentence: "
  | _ => false
  end.

Definition count_calls (p : call -> bool) (log : list entry) : nat :=
  length (List.filter p (calls log)).

(** The exception a call of the log raised, if one did. *)
Definition failure (e : entry) : option exn :=
  match e_reply e with Ok _ => None | Exn x => Some x end.

(** The entities handed to [insert], over the whole run. *)
Definition inserted (log : list entry) : list entities :=
  omap (fun c => match c with Insert _ data _ => Some data | _ => None end) (calls log).

(** The answers of the search calls of a run. *)
Definition search_results (log : list entry) : list (list (list Hit)) :=
  omap (fun e =>
    match e with
    | Entry c r =>
        match c return reply (ret c) -> option (list (list Hit)) with
        | SearchVectors _ _ _ _ _ _ => fun r => match r with Ok x => Some x | Exn _ => None end
        | _ => fun _ => None
        end r
    end) log.

(** The query vectors given to the search calls of a run. *)
Definition search_vectors (log : list entry) : list (list vector) :=
  omap (fun c => match c with SearchVectors _ data _ _ _ _ => Some data | _ => None end)
       (calls log).

(** The filter expressions and the answers of the query calls of a run. *)
Definition query_results (log : list entry) : list (string * list row) :=
  omap (fun e =>
    match e with
    | Entry c r =>
        match c return reply (ret c) -> option (string * list row) with
        | QueryExpr _ expr _ =>
            fun r => match r with Ok x => Some (expr, x) | Exn _ => None end
        | _ => fun _ => None
        end r
    end) log.

(** The rows a collection shows to reads, in a world. *)
Definition visible_rows (w : Milvus.World) (cname : string) : option (list row) :=
  Milvus.coll_rows <$> Milvus.collections w !! cname.

(** What the script reads from its configuration file. *)
Definition config_value (w : Milvus.World) (file section opt : string) : option string :=
  ini ← Milvus.files w !! file; sec ← ini !! section; sec !! opt.

(** The vector stored under [field_name] in a row. *)
Definition vector_of (field_name : string) (r : row) : option vector :=
  match assoc field_name r with
  | Some (VVec v) => Some v
  | _ => None
  end.

(** ** What a completed run of [embed.py] looks like *)

Module EmbedRun.
Import Milvus.

Definition model_dir : string := "/pyapp/models/multi-qa-MiniLM-L6-cos-v1/".

(** The primary keys the server generates for the vectors [vs]. *)
Definition keys (next : Z) (vs : list vector) : list Z :=
  seqZ next (Z.of_nat (length vs)).

(** The rows the server stores for the vectors [vs]. *)
Definition stored (next : Z) (vs : list vector) : list row :=
  zip_with (fun k v => [("id", VInt k); ("ristodata", VVec v)]) (keys next vs) vs.

Definition insert_result (next : Z) (vs : list vector) : MutationResult :=
  mkMutation (length vs) (keys next vs).

(** The existence check and, when the collection was there, its drop. *)
Definition reset_log (existed : bool) : list entry :=
  returned (HasCollection "ristobot") existed
  :: (if existed
      then [ returned (Collection "ristobot" None) "ristobot";
             returned (CollDrop "ristobot") tt ]
      else []).

(** All calls of a completed run, in order. *)
Definition log (uri token : string) (existed : bool) (vs : list vector) (next : Z)
  : list entry :=
  ([ printed [FLit "STEP  #1.1 Connect to the Milvus server"];
     returned NewParser tt;
     returned (CfgRead "config.ini") ["config.ini"];
     returned (CfgGet "example" "uri") uri;
     returned (CfgGet "example" "token") token;
     returned (Connect "default" uri token) tt;
     printed [FLit "STEP  #1.2 Define the collection schema"];
     printed [FSchema Embed.schema];
     printed [FLit "STEP  #1.3 Specify the collection name"];
     printed [FLit "STEP  #1.4 Drop the collection if it exists"] ]
   ++ reset_log existed
   ++ [ printed [FLit "STEP  #1.5 Create the collection"];
        returned (Collection "ristobot" (Some Embed.schema)) "ristobot";
        printed [FLit "STEP  #1.6 Load the SentenceTransformer model"];
        returned (SentenceTransformer model_dir) model_dir;
        printed [FLit "STEP  #1.7 Generate sentence embeddings using the SentenceTransformer model"];
        returned (Encode model_dir Embed.sentences) vs;
        printed [FVecs vs];
        printed [FLit "STEP  #1.8 prepare data"] ]
   ++ map (fun v => printed [FVec v]) vs
   ++ [ printed [FRows (Embed.entities vs)];
        printed [FLit "STEP  #1.9 insert"];
        returned (Insert "ristobot" (Rows (Embed.entities vs)) (Some "ristobot"))
                 (insert_result next vs);
        printed [FMutation (insert_result next vs)];
        printed [FLit "STEP  #1.10 Flush Collection"];
        returned (Flush "ristobot") tt;
        printed [FLit "STEP  #1.11 disconnect"];
        returned (Disconnect "default") tt ])%list.

(** Had the collection been there before the run? *)
Definition existed (w : World) : bool :=
  bool_decide (is_Some (collections w !! "ristobot")).

Definition run_log (w : World) (uri token : string) (embed : string -> vector) : list entry :=
  log uri token (existed w) (encode embed Embed.sentences) (next_auto_id w).

(** The world a completed run leaves behind. *)
Definition final_world (w : World) (uri token : string) (embed : string -> vector) : World :=
  mkWorld (files w) (default ∅ (files w !! "config.ini")) (endpoint_ok w)
          (({["default"]} ∪ connections w) ∖ {["default"]})
          (<["ristobot" :=
               mkColl Embed.schema
                      (stored (next_auto_id w) (encode embed Embed.sentences))
                      [] None false]> (collections w))
          (partition_ok w) (next_auto_id w + 3) (model_files w)
          (random_source w) (random_pos w) (clock w) (clock_pos w)
          (stdout w ++ printed_lines (run_log w uri token embed)) (tie_break w).

(** What the world must offer for the run to complete: the configuration
    keys, an endpoint that accepts them, the model files, a server that knows
    the partition the script names, and embeddings of the schema's dimension.
    [plan] reads these off the world, in the order the script needs them. *)
Definition plan (w : World) : option (string * string * (string -> vector)) :=
  uri ← config_value w "config.ini" "example" "uri";
  token ← config_value w "config.ini" "example" "token";
  if endpoint_ok w uri token
  then
    embed ← model_files w !! model_dir;
    if partition_ok w "ristobot" "ristobot"
    then
      if forallb (fun v => Nat.eqb (length v) 384) (encode embed Embed.sentences)
      then Some (uri, token, embed)
      else None
    else None
  else None.

End EmbedRun.

(** ** What a completed run of [test.py] looks like *)

Module TestRun.
Import Milvus.

(** The [j]-th random word count of the run. *)
Definition draw (w : World) (j : nat) : Z :=
  1 + random_source w (j + random_pos w)%nat mod (100 - 1 + 1).

(** The [j]-th clock reading of the run. *)
Definition tick (w : World) (j : nat) : Q := clock w (j + clock_pos w)%nat.

Definition word_counts (w : World) : list Z := [draw w 0; draw w 1; draw w 2].

Definition stored_row (k r : Z) (v : vector) (s : string) : row :=
  [("book_id", VInt k); ("word_count", VInt r); ("book_intro", VVec v);
   ("sentence", VStr s)].

(** The rows the server stores. *)
Definition stored (w : World) (embed : string -> vector) : list row :=
  [ stored_row 0 (draw w 0) (embed "mela") "mela";
    stored_row 1 (draw w 1) (embed "pera") "pera";
    stored_row 2 (draw w 2) (embed "banana") "banana" ].

(** The hit for row [i] when searching for ["pera"]. *)
Definition hit_for (embed : string -> vector) (i : nat) : Hit :=
  mkHit (Z.of_nat i) (l2 (embed "pera") (embed (nth i Test.sentences ""))).

(** The row the final query returns when row [i] was the hit. *)
Definition answer (w : World) (i : nat) : row :=
  [("book_id", VInt (Z.of_nat i)); ("word_count", VInt (draw w i));
   ("sentence", VStr (nth i Test.sentences ""))].

Definition succeeded (t0 t1 : Q) : entry :=
  printed [FLit "Succeed in "; FRound (t1 - t0)%Q 4; FLit " seconds!"].

(** The existence check and, when the collection was there, its drop. *)
Definition reset_log (existed : bool) : list entry :=
  returned (HasCollection "book") existed
  :: (if existed then [ returned (DropCollection "book") tt ] else []).

(** The calls of a completed run up to the search call. *)
Definition before_search (w : World) (uri token : string) (existed : bool)
  (embed : string -> vector) : list entry :=
  ([ returned NewParser tt;
     returned (CfgRead "config.ini") ["config.ini"];
     returned (CfgGet "milvus_ristobot" "uri") uri;
     returned (CfgGet "milvus_ristobot" "token") token;
     returned (Connect "default" uri token) tt;
     printed [FLit "Connecting to DB: "; FLit uri] ]
   ++ reset_log existed
   ++ [ printed [FLit "Success!"];
        printed [FLit "Creating ristobot collection: "; FLit "book"];
        returned (Collection "book" (Some Test.schema)) "book";
        printed [FLit "Schema: "; FSchema Test.schema];
        printed [FLit "Success!"];
        printed [FLit "Inserting "; FInt (Test.nb * Test.insert_rounds);
                 FLit " entities... "];
        printed [FLit "STEP   Generate sentence embeddings using the SentenceTransformer model"];
        returned (SentenceTransformer Test.bert_model_dir) Test.bert_model_dir;
        returned (Encode Test.bert_model_dir Test.sentences) (encode embed Test.sentences);
        printed [FLit "STEP  #1.8 prepare data"];
        returned (RandInt 1 100) (draw w 0);
        returned (RandInt 1 100) (draw w 1);
        returned (RandInt 1 100) (draw w 2);
        returned TimeNow (tick w 0);
        returned (Insert "book"
                    (Columns (Test.entities (word_counts w) (encode embed Test.sentences)))
                    None)
                 (mkMutation 3 [0; 1; 2]);
        returned TimeNow (tick w 1);
        succeeded (tick w 0) (tick w 1);
        printed [FLit "Flushing..."];
        returned TimeNow (tick w 2);
        returned (Flush "book") tt;
        returned TimeNow (tick w 3);
        succeeded (tick w 2) (tick w 3);
        returned TimeNow (tick w 4);
        printed [FLit "Building AutoIndex..."];
        returned (CreateIndex "book" "book_intro" Test.index_params) tt;
        returned TimeNow (tick w 5);
        succeeded (tick w 4) (tick w 5);
        returned TimeNow (tick w 6);
        printed [FLit "Loading collection..."];
        returned (LoadCollection "book") tt;
        returned TimeNow (tick w 7);
        succeeded (tick w 6) (tick w 7);
        returned (Encode Test.bert_model_dir ["pera"]) [embed "pera"];
        printed [FLit "Searching for '"; FLit "pera"; FLit "'..."];
        returned TimeNow (tick w 8) ])%list.

(** The search call answered with [results], and the two lines after it. *)
Definition search_log (w : World) (embed : string -> vector) (results : list (list Hit))
  : list entry :=
  [ returned (SearchVectors "book" [embed "pera"] "book_intro" Test.search_params 1 1)
             results;
    returned TimeNow (tick w 9);
    printed [FLit "Result:"; FResults results];
    printed [FLit "search latency: "; FRound (tick w 9 - tick w 8)%Q 4;
             FLit " seconds!"] ].

(** One pass of the hit-resolution loop, for the hit on row [i]. *)
Definition hit_log (embed : string -> vector) (i : nat) : list entry :=
  [ printed [FLit "hit id: "; FLit " "; FHit (hit_for embed i)];
    printed [FLit "hit id: "; FLit " "; FInt (Z.of_nat i)];
    printed [FLit "hit distance: "; FLit " "; FNum (distance (hit_for embed i))];
    printed [FLit "Matched Sentence: "; FLit (nth i Test.sentences "")] ].

(** The query for row [i], its one result row, and the disconnect. *)
Definition query_log (w : World) (i : nat) : list entry :=
  [ returned (QueryExpr "book" ("book_id == " ++ str_of_int (Z.of_nat i))
                        ["book_id"; "word_count"; "sentence"])
             [answer w i];
    printed [FLit "book_id: "; FValue (VInt (Z.of_nat i));
             FLit ",  word_count: "; FValue (VInt (draw w i));
             FLit " ,  sentence: "; FValue (VStr (nth i Test.sentences ""))];
    returned (Disconnect "default") tt ].

(** All calls of a completed run in which row [i] was the search hit. *)
Definition log (w : World) (uri token : string) (existed : bool)
  (embed : string -> vector) (i : nat) : list entry :=
  (before_search w uri token existed embed
   ++ search_log w embed [[hit_for embed i]]
   ++ hit_log embed i
   ++ query_log w i)%list.

(** All calls of a completed run in which the search found nothing. *)
Definition log_no_hits (w : World) (uri token : string) (existed : bool)
  (embed : string -> vector) : list entry :=
  (before_search w uri token existed embed
   ++ search_log w embed [[]]
   ++ query_log w 0)%list.

Definition existed (w : World) : bool :=
  bool_decide (is_Some (collections w !! "book")).

(** The world a completed run leaves behind, given its log. *)
Definition final_world (w : World) (embed : string -> vector) (log : list entry) : World :=
  mkWorld (files w) (default ∅ (files w !! "config.ini")) (endpoint_ok w)
          (({["default"]} ∪ connections w) ∖ {["default"]})
          (<["book" :=
               mkColl Test.schema (stored w embed) []
                      (Some ("book_intro", Test.index_params)) true]> (collections w))
          (partition_ok w) (next_auto_id w) (model_files w)
          (random_source w) (3 + random_pos w) (clock w) (10 + clock_pos w)
          (stdout w ++ printed_lines log) (tie_break w).

(** What the world must offer for the run to complete: the configuration
    keys, an endpoint that accepts them, the model files, and embeddings of
    the schema's dimension. *)
Definition plan (w : World) : option (string * string * (string -> vector)) :=
  uri ← config_value w "config.ini" "milvus_ristobot" "uri";
  token ← config_value w "config.ini" "milvus_ristobot" "token";
  if endpoint_ok w uri token
  then
    embed ← model_files w !! Test.bert_model_dir;
    if forallb (fun v => Nat.eqb (length v) 384) (encode embed Test.sentences)
    then Some (uri, token, embed)
    else None
  else None.

(** The hits the search for ["pera"] finds among the stored rows. *)
Definition found (w : World) (embed : string -> vector) : list Hit :=
  top_hits (tie_break w) "book_id" "book_intro" Test.topk (stored w embed) (embed "pera").

(** The row that is the top-1 hit. *)
Definition winner (w : World) (embed : string -> vector) : nat :=
  match found w embed with
  | h :: _ => Z.to_nat (id h)
  | [] => 0
  end.

(** The library of a run: the reference one, or the one whose search finds
    nothing. *)
Definition library (nothing : bool) : handler World :=
  if nothing then finding_nothing lib else lib.

(** All calls of a completed run against [library nothing]. *)
Definition run_log (nothing : bool) (w : World) (uri token : string)
  (embed : string -> vector) : list entry :=
  if nothing
  then log_no_hits w uri token (existed w) embed
  else log w uri token (existed w) embed (winner w embed).

End TestRun.

(** ** Further readings of logs and worlds, used in the statements *)

(** The float vectors among the entities handed to one [insert]. *)
Definition entity_vectors (data : entities) : list vector :=
  let vectors_of (vs : list value) : list vector :=
    omap (fun v => match v with VVec x => Some x | _ => None end) vs in
  match data with
  | Rows rs => flat_map (fun r => vectors_of (map snd r)) rs
  | Columns cs => flat_map vectors_of cs
  end.

(** The dimension a schema declares for its float-vector field. *)
Definition declared_dim (s : CollectionSchema) : option nat :=
  head (List.filter (fun f => Milvus.is_vector (dtype f)) (fields s)) ≫= dim.

(** The collection-manager calls about [cname], in the order of the log:
    existence checks, drops, and [Collection(...)] bindings. *)
Definition manager_calls (cname : string) (log : list entry) : list call :=
  List.filter (fun c =>
    match c with
    | HasCollection n | DropCollection n | CollDrop n | Collection n _ => String.eqb n cname
    | _ => false
    end) (calls log).

(** Two vectors with the same entries. *)
Definition same_vector (a b : vector) : Prop := Forall2 Qeq a b.

(** The embedding of the model [test.py] loads, in a world. *)
Definition embedder (w : Milvus.World) : string -> vector :=
  default (fun _ => []) (Milvus.model_files w !! Test.bert_model_dir).

(** A row restricted to some of its fields. *)
Definition restrict (field_names : list string) (rows : list row) : list (list (option value)) :=
  map (fun r => map (fun f => assoc f r) field_names) rows.


(** [model.encode(...)] *)
Definition is_encode (c : call) : bool :=
  match c with Encode _ _ => true | _ => false end.

(** The [encode] calls of a run that returned: the model, the strings
    given and the vectors returned. *)
Definition encoded (log : list entry) : list (string * list string * list vector) :=
  omap (fun e =>
    match e with
    | Entry c r =>
        match c return reply (ret c) -> option (string * list string * list vector) with
        | Encode model sentences =>
            fun r => match r with Ok vs => Some (model, sentences, vs) | Exn _ => None end
        | _ => fun _ => None
        end r
    end) log.








(** ** A world to run the scripts in *)

Module Demo.
Import Milvus.

(** An embedding that tells the three words of [test.py] apart. *)
Definition embed (s : string) : vector :=
  repeat (if String.eqb s "mela" then 1%Q
          else if String.eqb s "pera" then 2%Q else 3%Q) 384.

Definition ini : gmap string (gmap string string) :=
  {[ "example" := {[ "uri" := "https://db.example"; "token" := "secret" ]};
     "milvus_ristobot" := {[ "uri" := "https://db.example"; "token" := "secret" ]} ]}.

(** A reachable service with no collections, the configuration file and the
    model in place.  Of two hits at the same distance the server ranks the
    one with the smaller key first. *)
Definition world : World :=
  mkWorld {[ "config.ini" := ini ]} ∅ (fun _ _ => true) ∅ ∅ (fun _ _ => true) 100
          {[ "/pyapp/models/multi-qa-MiniLM-L6-cos-v1/" := embed ]}
          (fun n => Z.of_nat n * 37) 0 (fun n => inject_Z (Z.of_nat n)) 0 [] Z.leb.

(** The same, without the configuration file. *)
Definition unconfigured : World :=
  mkWorld ∅ ∅ (fun _ _ => true) ∅ ∅ (fun _ _ => true) 100
          {[ "/pyapp/models/multi-qa-MiniLM-L6-cos-v1/" := embed ]}
          (fun n => Z.of_nat n * 37) 0 (fun n => inject_Z (Z.of_nat n)) 0 [] Z.leb.

(** An embedding that maps every sentence to the same vector. *)
Definition flat (s : string) : vector := repeat 1%Q 384.

Definition flat_world : World :=
  mkWorld {[ "config.ini" := ini ]} ∅ (fun _ _ => true) ∅ ∅ (fun _ _ => true) 100
          {[ "/pyapp/models/multi-qa-MiniLM-L6-cos-v1/" := flat ]}
          (fun n => Z.of_nat n * 37) 0 (fun n => inject_Z (Z.of_nat n)) 0 [] Z.leb.




(** Other model files in the model directory: embeddings of three entries. *)
Definition short (s : string) : vector :=
  repeat (if String.eqb s "pera" then 2%Q else 1%Q) 3.

Definition short_world : World :=
  mkWorld {[ "config.ini" := ini ]} ∅ (fun _ _ => true) ∅ ∅ (fun _ _ => true) 100
          {[ "/pyapp/models/multi-qa-MiniLM-L6-cos-v1/" := short ]}
          (fun n => Z.of_nat n * 37) 0 (fun n => inject_Z (Z.of_nat n)) 0 [] Z.leb.

(** A server that holds both collections from earlier runs, each with one
    row of its own. *)
Definition stocked : World :=
  mkWorld {[ "config.ini" := ini ]} ∅ (fun _ _ => true) ∅
          {[ "ristobot" := mkColl Embed.schema
                             [[("id", VInt 7); ("ristodata", VVec (embed "old"))]] []
                             None false;
             "book" := mkColl Test.schema
                         [[("book_id", VInt 9); ("word_count", VInt 50);
                           ("book_intro", VVec (embed "old")); ("sentence", VStr "old")]] []
                         (Some ("book_intro", Test.index_params)) true ]}
          (fun _ _ => true) 100
          {[ "/pyapp/models/multi-qa-MiniLM-L6-cos-v1/" := embed ]}
          (fun n => Z.of_nat n * 37) 0 (fun n => inject_Z (Z.of_nat n)) 0 [] Z.leb.



End Demo.

(** * Properties *)

(** ** Runs in general *)

Lemma run_from_vis {W A} (h : handler W) c (k : ret c -> Prog A) w log :
  run_from h (Vis c k) w log =
  match h c w with
  | (Ok x, w1) => run_from h (k x) w1 (log ++ [Entry c (Ok x)])%list
  | (Exn e, w1) => (Raised e, w1, (log ++ [Entry c (Exn e)])%list)
  end.
Proof. reflexivity. Qed.

Lemma completes_raised {W A} e (w : W) l : ~ completes (A:=A) (Raised e, w, l).
Proof. intros [a Ha]. discriminate. Qed.

Lemma completes_done {W A} (a : A) (w : W) l : completes (Done a, w, l).
Proof. by exists a. Qed.

(** A run only ever appends to the log. *)
Lemma run_from_extends {W A} (h : handler W) (p : Prog A) w log :
  exists l, log_of (run_from h p w log) = (log ++ l)%list.
Proof.
  revert w log.
  induction p as [A a|A e|A c k IH|A X body IHb except IHe k IHk]; intros w log;
    cbn [run_from].
  - exists []. by rewrite app_nil_r.
  - exists []. by rewrite app_nil_r.
  - destruct (h c w) as [[x|e] w1].
    + destruct (IH x w1 (log ++ [Entry c (Ok x)])%list) as [l Hl].
      exists (Entry c (Ok x) :: l). rewrite Hl. by rewrite <- app_assoc.
    + by exists [Entry c (Exn e)].
  - destruct (IHb w log) as [l1 H1].
    destruct (run_from h body w log) as [[[x|e] w1] l1']; cbn in H1; subst l1'.
    + destruct (IHk x w1 (log ++ l1)%list) as [l2 H2].
      exists (l1 ++ l2)%list. by rewrite H2, app_assoc.
    + destruct (IHe e w1 (log ++ l1)%list) as [l2 H2].
      destruct (run_from h (except e) w1 (log ++ l1)%list) as [[[x|e'] w2] l2'];
        cbn in H2; subst l2'.
      * destruct (IHk x w2 ((log ++ l1) ++ l2)%list) as [l3 H3].
        exists (l1 ++ l2 ++ l3)%list. by rewrite H3, !app_assoc.
      * exists (l1 ++ l2)%list. by rewrite app_assoc.
Qed.

(** Where no [try] statement stands, the calls a run adds to the log all
    returned, except possibly the last one: when that one raised, the run
    ended there with its exception. *)
Lemma unguarded_fail_fast {W A} (h : handler W) (p : Prog A) w log :
  unguarded p ->
  exists l,
    log_of (run_from h p w log) = (log ++ l)%list
    /\ forall l1 c e l2,
         l = (l1 ++ raised c e :: l2)%list ->
         l2 = [] /\ outcome_of (run_from h p w log) = Raised e.
Proof.
  intros Hp. revert w log. induction Hp as [a|e|c k _ IH]; intros w log; cbn [run_from].
  - exists []. split; [by rewrite app_nil_r|]. intros [|? ?] ? ? ? ?; discriminate.
  - exists []. split; [by rewrite app_nil_r|]. intros [|? ?] ? ? ? ?; discriminate.
  - destruct (h c w) as [[x|e] w1].
    + destruct (IH x w1 (log ++ [Entry c (Ok x)])%list) as (l & Hl & Hfail).
      exists (Entry c (Ok x) :: l). split; [by rewrite Hl, <- app_assoc|].
      intros [|e1 l1] c' e' l2 Heq.
      * simplify_eq.
      * injection Heq as _ Heq. by apply (Hfail l1 c' e' l2).
    + exists [Entry c (Exn e)]. split; [done|].
      intros [|e1 [|? ?]] c' e' l2 Heq; [|discriminate..].
      unfold raised in Heq. injection Heq as Hc He Hl2. by subst.
Qed.

(** A [try] statement is where this ends: the call in its body raises, the
    handler takes over, and the run goes on to the calls after it. *)
Remark guarded_goes_on {W} (h : handler W) (w w1 : W) (e : exn) :
  h (CfgGet "example" "uri") w = (Exn e, w1) ->
  exists w2,
    run h (TryExcept (invoke (CfgGet "example" "uri")) (fun _ => Ret "") (fun _ => say "on"))
        w
    = (match fst (h (Print [FLit "on"]) w1) with Ok _ => Done tt | Exn e' => Raised e' end,
       w2,
       [raised (CfgGet "example" "uri") e; Entry (Print [FLit "on"]) (fst (h (Print [FLit "on"]) w1))]).
Proof.
  intros Hget. unfold run, say, print, invoke. cbn [run_from]. rewrite Hget. cbn [run_from app].
  destruct (h (Print [FLit "on"]) w1) as [[[]|e'] w2]; by exists w2.
Qed.

(** *** Programs without [try] *)

Remark try_is_guarded {A X} (body : Prog X) (except : exn -> Prog X) (k : X -> Prog A) :
  ~ unguarded (TryExcept body except k).
Proof. intros H. inversion H. Qed.

Lemma unguarded_mbind {A B} (p : Prog A) (f : A -> Prog B) :
  unguarded p -> (forall a, unguarded (f a)) -> unguarded (p ≫= f).
Proof.
  intros Hp Hf. unfold mbind, Prog_bind.
  induction Hp as [a|e|c k _ IH]; cbn [bind]; [apply Hf|constructor|by constructor].
Qed.

Lemma unguarded_invoke (c : call) : unguarded (invoke c).
Proof. constructor. intros x. constructor. Qed.

Lemma unguarded_print line : unguarded (print line).
Proof. exact (unguarded_invoke (Print line)). Qed.

Lemma unguarded_say s : unguarded (say s).
Proof. exact (unguarded_print [FLit s]). Qed.

Lemma unguarded_for_each {A} (xs : list A) body :
  (forall x, unguarded (body x)) -> unguarded (for_each xs body).
Proof.
  intros Hbody. induction xs as [|x xs IH]; cbn [for_each]; [constructor|].
  by apply (unguarded_mbind (body x)).
Qed.

Lemma unguarded_for_fold {A S} (xs : list A) (s : S) body :
  (forall x s, unguarded (body x s)) -> unguarded (for_fold xs s body).
Proof.
  intros Hbody. revert s. induction xs as [|x xs IH]; intros s; cbn [for_fold]; [constructor|].
  by apply (unguarded_mbind (body x s)).
Qed.

Lemma unguarded_comprehension {A B} (xs : list A) (body : A -> Prog B) :
  (forall x, unguarded (body x)) -> unguarded (comprehension xs body).
Proof.
  intros Hbody. induction xs as [|x xs IH]; cbn [comprehension]; [constructor|].
  apply (unguarded_mbind (body x)); [done|]. intros y.
  apply (unguarded_mbind (comprehension xs body)); [done|]. intros ys. constructor.
Qed.

Lemma unguarded_subscript0 {A} (xs : list A) : unguarded (subscript0 xs).
Proof. destruct xs; constructor. Qed.

Lemma unguarded_getitem d key : unguarded (getitem d key).
Proof. unfold getitem. destruct (d !! key); constructor. Qed.

Lemma unguarded_item_get item key : unguarded (item_get item key).
Proof. unfold item_get. destruct (assoc key item); constructor. Qed.

Create HintDb unguarded.
#[local] Hint Resolve unguarded_invoke unguarded_print unguarded_say unguarded_subscript0
  unguarded_getitem unguarded_item_get : unguarded.
#[local] Hint Constructors unguarded : unguarded.

(** One statement after the other, down a script. *)
Ltac unguarded_walk :=
  repeat first
    [ progress intros
    | apply unguarded_for_each
    | apply unguarded_for_fold
    | apply unguarded_comprehension
    | apply unguarded_mbind
    | match goal with |- unguarded (if ?b then _ else _) => destruct b end
    | match goal with |- unguarded (invoke ?c) => exact (unguarded_invoke c) end
    | solve [auto with unguarded] ].

Lemma unguarded_succeed_in t0 t1 : unguarded (Test.succeed_in t0 t1).
Proof. unfold Test.succeed_in. apply unguarded_print. Qed.

Lemma unguarded_hit_body hit m : unguarded (Test.hit_body hit m).
Proof. unfold Test.hit_body. unguarded_walk. Qed.

Lemma unguarded_item_body item : unguarded (Test.item_body item).
Proof. unfold Test.item_body. unguarded_walk. Qed.

Lemma unguarded_after_search collection t0 t1 results :
  unguarded (Test.after_search collection t0 t1 results).
Proof.
  unfold Test.after_search. pose proof unguarded_hit_body. pose proof unguarded_item_body.
  unguarded_walk.
Qed.

(** [embed.py] has no [try] statement. *)
Lemma unguarded_embed : unguarded Embed.script.
Proof. unfold Embed.script. unguarded_walk. Qed.

(** [test.py] has no [try] statement. *)
Lemma unguarded_test : unguarded Test.script.
Proof.
  unfold Test.script. pose proof unguarded_succeed_in. pose proof unguarded_after_search.
  unguarded_walk.
Qed.

(** ** The reference library, operation by operation *)

Section MilvusFacts.
Import Milvus.

Lemma cfg_read_fresh file w :
  parser w = ∅ ->
  cfg_read file w
  = (Ok (if files w !! file is Some _ then [file] else []),
     set_parser (default ∅ (files w !! file)) w).
Proof.
  intros Hp. unfold cfg_read. rewrite Hp. destruct (files w !! file) as [ini|]; cbn.
  - do 3 f_equal. apply map_eq. intros i.
    rewrite lookup_union_with, lookup_empty. by destruct (ini !! i).
  - f_equal. destruct w; cbn in *. unfold set_parser; cbn. by rewrite Hp.
Qed.

Lemma cfg_get_read file section opt w W :
  parser W = default ∅ (files w !! file) ->
  exists e, cfg_get section opt W
            = match config_value w file section opt with
              | Some v => (Ok v, W)
              | None => (Exn e, W)
              end.
Proof.
  intros Hp. unfold cfg_get, config_value. rewrite Hp.
  destruct (files w !! file) as [ini|]; cbn.
  - destruct (ini !! section) as [sec|]; cbn; [|by eexists].
    destruct (sec !! opt); [by exists IndexError | by eexists].
  - rewrite lookup_empty. by eexists.
Qed.

Lemma config_value_file w file section opt v :
  config_value w file section opt = Some v -> is_Some (files w !! file).
Proof. unfold config_value. destruct (files w !! file); [eauto | discriminate]. Qed.

(** Row dicts of [embed.py] are accepted exactly when every vector has the
    declared dimension; the server then adds the generated keys. *)
Lemma prepare_rows_embed vs next :
  prepare_rows Embed.schema (Rows (Embed.entities vs)) next
  = if forallb (fun v => Nat.eqb (length v) 384) vs
    then Some (EmbedRun.stored next vs, EmbedRun.keys next vs)
    else None.
Proof.
  unfold prepare_rows. cbn -[seqZ].
  assert (Hall : forallb (row_ok (supplied_fields Embed.schema)) (Embed.entities vs)
                 = forallb (fun v => Nat.eqb (length v) 384) vs).
  { unfold Embed.entities. induction vs as [|v vs IH]; [done|].
    cbn [map forallb]. rewrite IH. f_equal. cbn. by rewrite andb_true_r. }
  cbn in Hall. rewrite Hall.
  destruct (forallb (fun v => Nat.eqb (length v) 384) vs); [|done].
  cbn [mbind option_bind].
  unfold EmbedRun.stored, EmbedRun.keys, Embed.entities. rewrite length_map.
  do 2 f_equal. generalize (seqZ next (Z.of_nat (length vs))).
  clear. induction vs as [|v vs IH]; intros [|k ks]; cbn; try done. by rewrite IH.
Qed.

Lemma draw_range w j : 1 <= TestRun.draw w j <= 100.
Proof.
  unfold TestRun.draw.
  pose proof (Z.mod_pos_bound (random_source w (j + random_pos w)) (100 - 1 + 1)). lia.
Qed.

Lemma draw_int64 w j :
  (- 2 ^ 63 <=? TestRun.draw w j) && (TestRun.draw w j <? 2 ^ 63) = true.
Proof.
  pose proof (draw_range w j). apply andb_true_iff. split.
  - apply Z.leb_le. lia.
  - apply Z.ltb_lt. lia.
Qed.

(** The columns of [test.py] are accepted exactly when every vector has the
    declared dimension; they are stored row by row. *)
Lemma prepare_rows_test w embed next :
  prepare_rows Test.schema
    (Columns (Test.entities (TestRun.word_counts w) (encode embed Test.sentences))) next
  = if forallb (fun v => Nat.eqb (length v) 384) (encode embed Test.sentences)
    then Some (TestRun.stored w embed, [0; 1; 2])
    else None.
Proof.
  unfold prepare_rows, Test.entities, TestRun.word_counts.
  change Test.book_ids with [0; 1; 2].
  cbn -[Z.leb Z.ltb Z.pow TestRun.draw].
  rewrite !draw_int64. cbn -[TestRun.draw].
  rewrite ?andb_true_r.
  change (- 2 ^ 63 <=? 0) with true. change (- 2 ^ 63 <=? 1) with true.
  change (- 2 ^ 63 <=? 2) with true. change Test.dim with 384%nat.
  cbn [andb].
  destruct (Nat.eqb (length (embed "mela")) 384); [|done].
  destruct (Nat.eqb (length (embed "pera")) 384); [|done].
  destruct (Nat.eqb (length (embed "banana")) 384); done.
Qed.

Lemma dims_pera embed :
  forallb (fun v => Nat.eqb (length v) 384) (encode embed Test.sentences) = true ->
  Nat.eqb (length (embed "pera")) 384 = true.
Proof. cbn. rewrite !andb_true_iff. tauto. Qed.

(** Ranking reorders the hits and loses none. *)
Lemma rank_insert_perm tie h l : rank_insert tie h l ≡ₚ h :: l.
Proof.
  induction l as [|x l IH]; cbn; [done|].
  destruct (ranks_before _ _ _); [done|]. rewrite IH. apply Permutation_swap.
Qed.

Lemma rank_perm tie l : rank tie l ≡ₚ l.
Proof.
  induction l as [|x l IH]; cbn; [done|]. by rewrite rank_insert_perm, IH.
Qed.

Lemma top1_elem tie l :
  l <> [] -> exists x, take 1 (rank tie l) = [x] /\ x ∈ l.
Proof.
  intros Hl. pose proof (rank_perm tie l) as Hp.
  destruct (rank tie l) as [|x r] eqn:Hr.
  - apply Permutation_nil_l in Hp. congruence.
  - exists x. split; [done|]. rewrite <- Hp. left.
Qed.

Lemma found_hits w embed :
  TestRun.found w embed
  = take 1 (rank (tie_break w)
              [TestRun.hit_for embed 0; TestRun.hit_for embed 1; TestRun.hit_for embed 2]).
Proof. reflexivity. Qed.

(** The search of [test.py] finds exactly one hit, on one of the three rows. *)
Lemma found_winner w embed :
  (TestRun.winner w embed < 3)%nat
  /\ TestRun.found w embed = [TestRun.hit_for embed (TestRun.winner w embed)].
Proof.
  unfold TestRun.winner. rewrite found_hits.
  destruct (top1_elem (tie_break w)
              [TestRun.hit_for embed 0; TestRun.hit_for embed 1; TestRun.hit_for embed 2])
    as (x & -> & Hx); [done|].
  rewrite !elem_of_cons in Hx.
  destruct Hx as [->|[->|[->|Hx]]]; [| | |by apply elem_of_nil in Hx]; cbn; split; (lia || done).
Qed.

End MilvusFacts.

(** ** Stepping through a run against the reference library *)

Ltac prog_norm :=
  cbn [mbind Prog_bind bind say print invoke for_each for_fold comprehension subscript0
       Test.succeed_in Test.after_search Test.hit_body].

Create HintDb world.
#[local] Hint Unfold Milvus.set_parser Milvus.set_connections Milvus.set_collections
  Milvus.set_next_auto_id Milvus.set_random_pos Milvus.set_clock_pos Milvus.set_stdout
  Milvus.put_collection : world.

Ltac norm :=
  autounfold with world;
  cbn [Milvus.files Milvus.parser Milvus.endpoint_ok Milvus.connections Milvus.collections
       Milvus.partition_ok Milvus.next_auto_id Milvus.model_files Milvus.random_source
       Milvus.random_pos Milvus.clock Milvus.clock_pos Milvus.stdout Milvus.tie_break
       Milvus.coll_schema Milvus.coll_rows Milvus.coll_pending Milvus.coll_index
       Milvus.coll_loaded app ret andb];
  prog_norm.

(** One call, handed to the library. *)
Ltac lib_call := rewrite run_from_vis; cbn [Milvus.lib finding_nothing].

(** A call the library answers without a condition. *)
Ltac call := lib_call; cbn [Milvus.disconnect Milvus.time_now]; norm.

(** A collection operation on a live connection. *)
Ltac coll_call Hconn :=
  lib_call;
  unfold Milvus.has_collection, Milvus.get_collection, Milvus.drop_collection,
    Milvus.create_collection, Milvus.insert, Milvus.flush, Milvus.create_index,
    Milvus.load, Milvus.search, Milvus.query, Milvus.with_collection,
    Milvus.with_connection, Milvus.connected;
  norm; rewrite Hconn; rewrite ?lookup_insert_eq, ?lookup_delete_eq; norm.

Ltac rand_call := lib_call; unfold Milvus.randint; change (100 <? 1) with false; norm.

(** Reading one configuration key; [bad] closes the branch without it. *)
Ltac cfg_call w section opt uri Huri bad :=
  lib_call;
  let e := fresh "e" in
  edestruct (cfg_get_read "config.ini" section opt w) as [e ->]; [reflexivity|];
  destruct (config_value w "config.ini" section opt) as [uri|] eqn:Huri; [|bad];
  clear e; norm.

(** The plan is decided by the facts collected so far. *)
Ltac plan_solve :=
  unfold EmbedRun.plan, TestRun.plan;
  repeat first [ progress cbn [mbind option_bind]
               | match goal with H : ?x = _ |- context [?x] => rewrite H end ];
  reflexivity.

(** ** Every run of [embed.py], case by case *)

Section EmbedFacts.
Import Milvus.

(** A run of [embed.py] either raises, in a world that [EmbedRun.plan]
    rejects, or completes, with the log and the final world spelled out by
    [EmbedRun.run_log] and [EmbedRun.final_world]. *)
Lemma embed_run_cases w (Q : outcome unit * World * list entry -> Prop) :
  (forall uri token embed,
     EmbedRun.plan w = Some (uri, token, embed) ->
     Q (Done tt, EmbedRun.final_world w uri token embed,
        EmbedRun.run_log w uri token embed)) ->
  (forall e w' l, EmbedRun.plan w = None -> Q (Raised e, w', l)) ->
  Q (run lib Embed.script w).
Proof.
  intros Hdone Hfail. unfold run, Embed.script, Embed.collection_name. prog_norm.
  do 2 call.
  lib_call; rewrite cfg_read_fresh by reflexivity; norm.
  cfg_call w "example" "uri" uri Huri ltac:(apply Hfail; plan_solve).
  cfg_call w "example" "token" token Htoken ltac:(apply Hfail; plan_solve).
  lib_call; unfold connect; norm.
  destruct (endpoint_ok w uri token) eqn:Hep; [|apply Hfail; plan_solve].
  norm. do 4 call.
  assert (Hconn : bool_decide ("default" ∈ ({["default"]} ∪ connections w : gset string)) = true)
    by (apply bool_decide_eq_true; set_solver).
  coll_call Hconn.
  unfold EmbedRun.final_world, EmbedRun.run_log, EmbedRun.existed in Hdone.
  destruct (collections w !! "ristobot") as [old|] eqn:Hold.
  1: rewrite bool_decide_eq_true_2 in Hdone |- * by eauto.
  2: rewrite bool_decide_eq_false_2 in Hdone |- * by (intros [? ?]; done).
  all: norm.
  1: coll_call Hconn; rewrite Hold; norm.
  1: coll_call Hconn; rewrite Hold; norm.
  all: call; coll_call Hconn; rewrite ?Hold.
  all: change (schema_ok Embed.schema) with true; norm.
  1: rewrite insert_delete_eq.
  all: call.
  all: lib_call; unfold sentence_transformer; norm.
  all: fold EmbedRun.model_dir.
  all: destruct (model_files w !! EmbedRun.model_dir) as [embed|] eqn:Hembed;
    [|apply Hfail; plan_solve].
  all: norm; call.
  all: lib_call; unfold model_encode; norm; rewrite Hembed; norm.
  all: set (vs := encode embed Embed.sentences).
  all: do 2 call.
  all: cbn [encode map Embed.sentences] in vs; subst vs; norm; do 3 call.
  all: match goal with |- context [Embed.entities ?l] =>
         change l with (encode embed Embed.sentences) end.
  all: set (vs := encode embed Embed.sentences).
  all: do 2 call.
  all: coll_call Hconn.
  all: destruct (partition_ok w "ristobot" "ristobot") eqn:Hpart; [|apply Hfail; plan_solve].
  all: rewrite prepare_rows_embed.
  all: destruct (forallb (fun v => Nat.eqb (length v) 384) vs) eqn:Hdim;
    [|apply Hfail; subst vs; plan_solve].
  all: change (schema_auto_id Embed.schema) with true; norm.
  all: rewrite insert_insert_eq.
  all: do 2 call.
  all: coll_call Hconn; rewrite insert_insert_eq.
  all: call; unfold invoke; call; cbn [run_from].
  all: rewrite <- !app_assoc; cbn [app].
  all: subst vs.
  all: assert (Hplan : EmbedRun.plan w = Some (uri, token, embed)) by plan_solve.
  all: specialize (Hdone _ _ _ Hplan).
  all: apply config_value_file in Huri as [ini Hini]; rewrite Hini in Hdone |- *.
  all: exact Hdone.
Qed.

(** A completed run of [embed.py] is the one [EmbedRun] describes. *)
Lemma embed_completed w :
  completes (run lib Embed.script w) ->
  exists uri token embed,
    EmbedRun.plan w = Some (uri, token, embed)
    /\ run lib Embed.script w
       = (Done tt, EmbedRun.final_world w uri token embed,
          EmbedRun.run_log w uri token embed).
Proof.
  apply (embed_run_cases w (fun r => completes r -> exists uri token embed,
    EmbedRun.plan w = Some (uri, token, embed)
    /\ r = (Done tt, EmbedRun.final_world w uri token embed,
            EmbedRun.run_log w uri token embed))).
  - intros uri token embed Hplan _. by exists uri, token, embed.
  - intros e w' l _ H. by apply completes_raised in H.
Qed.

(** In a world the plan accepts, [embed.py] completes. *)
Lemma embed_ready w uri token embed :
  EmbedRun.plan w = Some (uri, token, embed) ->
  run lib Embed.script w
  = (Done tt, EmbedRun.final_world w uri token embed, EmbedRun.run_log w uri token embed).
Proof.
  apply (embed_run_cases w (fun r => EmbedRun.plan w = Some (uri, token, embed) ->
    r = (Done tt, EmbedRun.final_world w uri token embed,
         EmbedRun.run_log w uri token embed))).
  - intros uri' token' embed' Hplan Hplan'. by simplify_eq.
  - intros e w' l Hnone Hplan. congruence.
Qed.

End EmbedFacts.

(** ** Every run of [test.py], case by case *)

(** The query for row [i], the one pass of the result loop, the end of the run. *)
Ltac test_query Hconn w embed i :=
  coll_call Hconn;
  change (Milvus.parse_expr ("book_id == " ++ str_of_int i)) with (Some ("book_id", i));
  cbv iota beta;
  change (Milvus.has_field Test.schema "book_id"
          && forallb (Milvus.has_field Test.schema) ["book_id"; "word_count"; "sentence"])
    with true;
  cbv iota;
  change (map _ (List.filter (Milvus.field_is "book_id" i) (TestRun.stored w embed)))
    with [TestRun.answer w (Z.to_nat i)];
  norm;
  unfold Test.item_body, item_get, TestRun.answer;
  cbn [assoc String.eqb Ascii.eqb Bool.eqb]; norm;
  call; unfold invoke; call; cbn [run_from];
  rewrite <- !app_assoc; cbn [app].

Section TestFacts.
Import Milvus.

(** A run of [test.py], against the reference library or against the one
    whose search finds nothing, either raises, in a world that
    [TestRun.plan] rejects, or completes, with the log and the final world
    spelled out by [TestRun.run_log] and [TestRun.final_world]. *)
Lemma test_run_cases (nothing : bool) w (Q : outcome unit * World * list entry -> Prop) :
  (forall uri token embed,
     TestRun.plan w = Some (uri, token, embed) ->
     Q (Done tt,
        TestRun.final_world w embed (TestRun.run_log nothing w uri token embed),
        TestRun.run_log nothing w uri token embed)) ->
  (forall e w' l, TestRun.plan w = None -> Q (Raised e, w', l)) ->
  Q (run (TestRun.library nothing) Test.script w).
Proof.
  intros Hdone Hfail.
  unfold run, Test.script; change (seqZ 0 Test.nb) with [0; 1; 2].
  unfold Test.collection_name, Test.search_str, TestRun.library.
  destruct nothing.
  all: prog_norm; call.
  all: lib_call; rewrite cfg_read_fresh by reflexivity; norm.
  all: cfg_call w "milvus_ristobot" "uri" uri Huri ltac:(apply Hfail; plan_solve).
  all: cfg_call w "milvus_ristobot" "token" token Htoken ltac:(apply Hfail; plan_solve).
  all: lib_call; unfold connect; norm.
  all: destruct (endpoint_ok w uri token) eqn:Hep; [|apply Hfail; plan_solve].
  all: norm; call.
  all: assert (Hconn : bool_decide ("default" ∈ ({["default"]} ∪ connections w
                                                  : gset string)) = true)
         by (apply bool_decide_eq_true; set_solver).
  all: coll_call Hconn.
  all: destruct (collections w !! "book") as [old|] eqn:Hold.
  all: first [ rewrite bool_decide_eq_true_2 by eauto; norm;
               coll_call Hconn; rewrite Hold; norm
             | rewrite bool_decide_eq_false_2 by (intros [? ?]; done); norm ].
  all: do 2 call; coll_call Hconn; rewrite ?Hold.
  all: change (schema_ok Test.schema) with true; norm.
  all: rewrite ?insert_delete_eq.
  all: do 4 call.
  all: lib_call; unfold sentence_transformer; norm.
  all: destruct (model_files w !! Test.bert_model_dir) as [embed|] eqn:Hembed;
    [|apply Hfail; plan_solve].
  all: norm.
  all: lib_call; unfold model_encode; norm; rewrite Hembed; norm.
  all: call; do 3 rand_call; call.
  all: coll_call Hconn.
  all: change (Test.entities _ _)
         with (Test.entities (TestRun.word_counts w) (encode embed Test.sentences)).
  all: rewrite prepare_rows_test.
  all: destruct (forallb (fun v => Nat.eqb (length v) 384) (encode embed Test.sentences))
         eqn:Hdim; [|apply Hfail; plan_solve].
  all: change (schema_auto_id Test.schema) with false; norm.
  all: rewrite insert_insert_eq.
  all: do 4 call.
  all: coll_call Hconn; rewrite insert_insert_eq.
  all: do 4 call.
  all: coll_call Hconn.
  all: change (vector_field Test.schema (name Test.book_intro_field))
         with (Some Test.book_intro_field).
  all: norm; rewrite insert_insert_eq.
  all: do 4 call.
  all: coll_call Hconn; rewrite insert_insert_eq.
  all: do 2 call.
  all: lib_call; unfold model_encode; norm; rewrite Hembed; norm.
  all: cbn [encode map]; norm.
  all: do 2 call.
  (* the search: answered with nothing (goals 1, 2), or by the server *)
  1, 2: lib_call; cbn [map]; norm; do 3 call.
  1, 2: test_query Hconn w embed 0.
  3, 4: coll_call Hconn.
  3, 4: change (vector_field Test.schema (name Test.book_intro_field))
          with (Some Test.book_intro_field).
  3, 4: change (primary_name Test.schema) with (Some "book_id").
  3, 4: cbv beta iota.
  3, 4: change (name Test.book_intro_field) with "book_intro".
  3, 4: change (String.eqb "book_intro" "book_intro") with true.
  3, 4: change (String.eqb (metric_type Test.search_params)
                           (index_metric_type Test.index_params)) with true.
  3, 4: change (forallb _ [embed "pera"]) with (Nat.eqb (length (embed "pera")) 384 && true).
  3, 4: rewrite (dims_pera _ Hdim); norm.
  3, 4: change (map _ [embed "pera"]) with [TestRun.found w embed].
  3, 4: destruct (found_winner w embed) as [Hlt Hfound]; rewrite Hfound.
  3, 4: do 3 call.
  3, 4: replace (id (TestRun.hit_for embed (TestRun.winner w embed)))
          with (Z.of_nat (TestRun.winner w embed)) by reflexivity.
  3, 4: destruct (TestRun.winner w embed) as [|[|[|i]]] eqn:Hi; [| | |lia].
  3-8: do 3 call.
  3-8: unfold getitem.
  3-8: change (Z.of_nat 0) with 0; change (Z.of_nat 1) with 1; change (Z.of_nat 2) with 2.
  3-8: try change (Test.id_sentence_map !! 0) with (Some "mela").
  3-8: try change (Test.id_sentence_map !! 1) with (Some "pera").
  3-8: try change (Test.id_sentence_map !! 2) with (Some "banana").
  3-8: norm; call.
  3, 6: test_query Hconn w embed 0.
  5, 7: test_query Hconn w embed 1.
  7, 8: test_query Hconn w embed 2.
  all: assert (Hplan : TestRun.plan w = Some (uri, token, embed)) by plan_solve.
  all: specialize (Hdone _ _ _ Hplan).
  all: unfold TestRun.final_world, TestRun.run_log, TestRun.existed in Hdone.
  all: rewrite ?Hi in Hdone.
  all: rewrite Hold in Hdone.
  all: apply config_value_file in Huri as [ini Hini]; rewrite Hini in Hdone |- *.
  all: first [ rewrite bool_decide_eq_true_2 in Hdone by eauto
             | rewrite bool_decide_eq_false_2 in Hdone by (intros [? ?]; done) ].
  all: exact Hdone.
Qed.

End TestFacts.

Section TestRuns.
Import Milvus.

(** A completed run of [test.py] is the one [TestRun] describes. *)
Lemma test_completed nothing w :
  completes (run (TestRun.library nothing) Test.script w) ->
  exists uri token embed,
    TestRun.plan w = Some (uri, token, embed)
    /\ run (TestRun.library nothing) Test.script w
       = (Done tt,
          TestRun.final_world w embed (TestRun.run_log nothing w uri token embed),
          TestRun.run_log nothing w uri token embed).
Proof.
  apply (test_run_cases nothing w (fun r => completes r -> exists uri token embed,
    TestRun.plan w = Some (uri, token, embed)
    /\ r = (Done tt,
            TestRun.final_world w embed (TestRun.run_log nothing w uri token embed),
            TestRun.run_log nothing w uri token embed))).
  - intros uri token embed Hplan _. by exists uri, token, embed.
  - intros e w' l _ H. by apply completes_raised in H.
Qed.

(** In a world the plan accepts, [test.py] completes. *)
Lemma test_ready nothing w uri token embed :
  TestRun.plan w = Some (uri, token, embed) ->
  run (TestRun.library nothing) Test.script w
  = (Done tt,
     TestRun.final_world w embed (TestRun.run_log nothing w uri token embed),
     TestRun.run_log nothing w uri token embed).
Proof.
  apply (test_run_cases nothing w (fun r => TestRun.plan w = Some (uri, token, embed) ->
    r = (Done tt,
         TestRun.final_world w embed (TestRun.run_log nothing w uri token embed),
         TestRun.run_log nothing w uri token embed))).
  - intros uri' token' embed' Hplan Hplan'. by simplify_eq.
  - intros e w' l Hnone Hplan. congruence.
Qed.

End TestRuns.

(** * The two scripts, claim by claim *)

(** ** Completed runs of [test.py] against the reference library *)

Lemma test_lib_completed w :
  completes (run Milvus.lib Test.script w) ->
  exists uri token embed,
    TestRun.plan w = Some (uri, token, embed)
    /\ run Milvus.lib Test.script w
       = (Done tt,
          TestRun.final_world w embed
            (TestRun.log w uri token (TestRun.existed w) embed (TestRun.winner w embed)),
          TestRun.log w uri token (TestRun.existed w) embed (TestRun.winner w embed)).
Proof. apply (test_completed false w). Qed.

Lemma test_lib_ready w uri token embed :
  TestRun.plan w = Some (uri, token, embed) ->
  run Milvus.lib Test.script w
  = (Done tt,
     TestRun.final_world w embed
       (TestRun.log w uri token (TestRun.existed w) embed (TestRun.winner w embed)),
     TestRun.log w uri token (TestRun.existed w) embed (TestRun.winner w embed)).
Proof. apply (test_ready false w). Qed.

Lemma winner_cases w embed :
  TestRun.winner w embed = 0%nat \/ TestRun.winner w embed = 1%nat
  \/ TestRun.winner w embed = 2%nat.
Proof. destruct (found_winner w embed) as [H _]. lia. Qed.

(** ** No error handling *)

(** C9. Neither script handles errors.  Neither contains a [try] statement;
    so, whatever the libraries do, when one of their calls raises (the
    service out of reach, entities that do not fit the schema, a vector of
    another dimension, a missing configuration key, missing model files),
    every call before it had returned, no call is made after it (no retry,
    no recovery), and the run ends with that exception. *)
Theorem no_error_handling {W} (h : handler W) (w : W) (script : Prog unit) :
  script = Embed.script \/ script = Test.script ->
  unguarded script
  /\ forall (l1 : list entry) (c : call) (e : exn) (l2 : list entry),
       log_of (run h script w) = (l1 ++ raised c e :: l2)%list ->
       l2 = []
       /\ outcome_of (run h script w) = Raised e
       /\ Forall (fun x => failure x = None) l1.
Proof.
  intros Hscript.
  assert (Hun : unguarded script).
  { destruct Hscript as [-> | ->]; [apply unguarded_embed | apply unguarded_test]. }
  split; [exact Hun|]. intros l1 c e l2 Hlog. unfold run in *.
  destruct (unguarded_fail_fast h script w [] Hun) as (l & Hl & Hfail).
  rewrite Hl in Hlog. cbn [app] in Hlog. subst l.
  destruct (Hfail l1 c e l2 eq_refl) as [-> Hout]. repeat split; [done|].
  apply Forall_forall. intros [c' [x|e']] Hin; [done|]. exfalso.
  apply list_elem_of_split in Hin as (k1 & k2 & ->).
  destruct (Hfail k1 c' e' (k2 ++ [raised c e])%list) as [Hnil _].
  - by rewrite <- app_assoc.
  - by destruct k2.
Qed.

Lemma no_error_handling_witness :
  unguarded Test.script
  /\ outcome_of (run Milvus.lib Test.script Demo.unconfigured)
     = Raised (NoSectionError "milvus_ristobot")
  /\ Forall (fun x => failure x = None)
            [returned NewParser tt; returned (CfgRead "config.ini") []].
Proof.
  destruct (no_error_handling Milvus.lib Demo.unconfigured Test.script) as [Hun Hraise].
  - right. reflexivity.
  - split; [exact Hun|].
    destruct (Hraise [returned NewParser tt; returned (CfgRead "config.ini") []]
                     (CfgGet "milvus_ristobot" "uri") (NoSectionError "milvus_ristobot") [])
      as (_ & Hout & Hbefore).
    + vm_compute. reflexivity.
    + split; assumption.
Defined.

(** ** The connection is closed once, at the end *)

Section Disconnect.
Import Milvus.

(** C6. In every run of either script that reaches its end, the connection
    ["default"] is closed exactly once, by the last call of the run, and is
    no longer registered afterwards. *)
Theorem disconnect_once (w : World) (script : Prog unit) :
  script = Embed.script \/ script = Test.script ->
  completes (run lib script w) ->
  count_calls (is_disconnect "default") (log_of (run lib script w)) = 1%nat
  /\ last (calls (log_of (run lib script w))) = Some (Disconnect "default")
  /\ "default" ∉ connections (final (run lib script w)).
Proof.
  intros [-> | ->] Hdone.
  - destruct (embed_completed w Hdone) as (uri & token & embed & _ & Hrun). rewrite Hrun.
    unfold log_of, final, EmbedRun.run_log; cbn [fst snd].
    split; [|split].
    + by destruct (EmbedRun.existed w).
    + by destruct (EmbedRun.existed w).
    + cbn. intros [_ Hn]%elem_of_difference. apply Hn. by apply elem_of_singleton.
  - destruct (test_lib_completed w Hdone) as (uri & token & embed & _ & Hrun). rewrite Hrun.
    unfold log_of, final; cbn [fst snd].
    split; [|split].
    + by destruct (TestRun.existed w), (winner_cases w embed) as [-> | [-> | ->]].
    + by destruct (TestRun.existed w), (winner_cases w embed) as [-> | [-> | ->]].
    + cbn. intros [_ Hn]%elem_of_difference. apply Hn. by apply elem_of_singleton.
Qed.

Lemma disconnect_once_witness :
  (count_calls (is_disconnect "default") (log_of (run lib Embed.script Demo.world)) = 1%nat
   /\ last (calls (log_of (run lib Embed.script Demo.world))) = Some (Disconnect "default")
   /\ "default" ∉ connections (final (run lib Embed.script Demo.world)))
  /\ (count_calls (is_disconnect "default") (log_of (run lib Test.script Demo.world)) = 1%nat
      /\ last (calls (log_of (run lib Test.script Demo.world))) = Some (Disconnect "default")
      /\ "default" ∉ connections (final (run lib Test.script Demo.world))).
Proof.
  split.
  - apply (disconnect_once Demo.world Embed.script).
    + left. reflexivity.
    + exists tt. vm_compute. reflexivity.
  - apply (disconnect_once Demo.world Test.script).
    + right. reflexivity.
    + exists tt. vm_compute. reflexivity.
Defined.

End Disconnect.

(** ** How many entities a run of [test.py] inserts *)

Section InsertCount.
Import Milvus.

(** C10. A run of [test.py] that reaches its end makes one insert call, of
    three entities ([nb = 3]): the collection then holds exactly three
    rows, although the progress line announced [nb * insert_rounds = 6]. *)
Theorem test_inserts_three (w : World) :
  completes (run lib Test.script w) ->
  count_calls is_insert (log_of (run lib Test.script w)) = 1%nat
  /\ (exists cols, inserted (log_of (run lib Test.script w)) = [Columns cols]
                   /\ Forall (fun col => length col = 3%nat) cols)
  /\ (exists rows, visible_rows (final (run lib Test.script w)) "book" = Some rows
                   /\ length rows = 3%nat)
  /\ Test.nb = 3
  /\ In [FLit "Inserting "; FInt 6; FLit " entities... "]
        (printed_lines (log_of (run lib Test.script w))).
Proof.
  intros Hdone.
  destruct (test_lib_completed w Hdone) as (uri & token & embed & _ & Hrun). rewrite Hrun.
  unfold log_of, final; cbn [fst snd].
  split; [|split; [|split; [|split]]].
  - by destruct (TestRun.existed w), (winner_cases w embed) as [-> | [-> | ->]].
  - exists (Test.entities (TestRun.word_counts w) (encode embed Test.sentences)). split.
    + by destruct (TestRun.existed w), (winner_cases w embed) as [-> | [-> | ->]].
    + repeat constructor.
  - exists (TestRun.stored w embed). split; [|done].
    unfold visible_rows, TestRun.final_world. cbn [collections].
    by rewrite lookup_insert_eq.
  - reflexivity.
  - destruct (TestRun.existed w); cbn; tauto.
Qed.

Lemma test_inserts_three_witness :
  count_calls is_insert (log_of (run lib Test.script Demo.world)) = 1%nat
  /\ (exists cols, inserted (log_of (run lib Test.script Demo.world)) = [Columns cols]
                   /\ Forall (fun col => length col = 3%nat) cols)
  /\ (exists rows, visible_rows (final (run lib Test.script Demo.world)) "book" = Some rows
                   /\ length rows = 3%nat)
  /\ Test.nb = 3
  /\ In [FLit "Inserting "; FInt 6; FLit " entities... "]
        (printed_lines (log_of (run lib Test.script Demo.world))).
Proof.
  apply (test_inserts_three Demo.world).
  exists tt. vm_compute. reflexivity.
Defined.

End InsertCount.

(** ** What a plan guarantees *)

Section Plans.
Import Milvus.

Lemma forallb_dim vs :
  forallb (fun v : vector => Nat.eqb (length v) 384) vs = true <->
  Forall (fun v => length v = 384%nat) vs.
Proof.
  rewrite forallb_forall, Forall_forall. split; intros H v Hv.
  - apply Nat.eqb_eq, H. by apply list_elem_of_In.
  - apply Nat.eqb_eq, H. by apply list_elem_of_In.
Qed.

Lemma embed_plan_inv w uri token embed :
  EmbedRun.plan w = Some (uri, token, embed) <->
  config_value w "config.ini" "example" "uri" = Some uri
  /\ config_value w "config.ini" "example" "token" = Some token
  /\ endpoint_ok w uri token = true
  /\ model_files w !! EmbedRun.model_dir = Some embed
  /\ partition_ok w "ristobot" "ristobot" = true
  /\ Forall (fun v => length v = 384%nat) (encode embed Embed.sentences).
Proof.
  rewrite <- forallb_dim. unfold EmbedRun.plan. split.
  - destruct (config_value w _ _ "uri") as [u|]; [|discriminate].
    destruct (config_value w _ _ "token") as [t|]; [|discriminate]. cbn [mbind option_bind].
    destruct (endpoint_ok w u t) eqn:Hep; [|discriminate].
    destruct (model_files w !! _) as [e|]; [|discriminate]. cbn [mbind option_bind].
    destruct (partition_ok w _ _); [|discriminate].
    destruct (forallb _ _) eqn:Hdim; [|discriminate].
    intros [= <- <- <-]. done.
  - intros (-> & -> & Hep & Hm & Hp & Hdim). cbn [mbind option_bind].
    rewrite Hep, Hm. cbn [mbind option_bind].
    unfold vector in Hdim. by rewrite Hp, Hdim.
Qed.

Lemma test_plan_inv w uri token embed :
  TestRun.plan w = Some (uri, token, embed) <->
  config_value w "config.ini" "milvus_ristobot" "uri" = Some uri
  /\ config_value w "config.ini" "milvus_ristobot" "token" = Some token
  /\ endpoint_ok w uri token = true
  /\ model_files w !! Test.bert_model_dir = Some embed
  /\ Forall (fun v => length v = 384%nat) (encode embed Test.sentences).
Proof.
  rewrite <- forallb_dim. unfold TestRun.plan. split.
  - destruct (config_value w _ _ "uri") as [u|]; [|discriminate].
    destruct (config_value w _ _ "token") as [t|]; [|discriminate]. cbn [mbind option_bind].
    destruct (endpoint_ok w u t) eqn:Hep; [|discriminate].
    destruct (model_files w !! _) as [e|]; [|discriminate]. cbn [mbind option_bind].
    destruct (forallb _ _) eqn:Hdim; [|discriminate].
    intros [= <- <- <-]. done.
  - intros (-> & -> & Hep & Hm & Hdim). cbn [mbind option_bind].
    rewrite Hep, Hm. cbn [mbind option_bind].
    unfold vector in Hdim. by rewrite Hdim.
Qed.

Lemma embedder_model w embed :
  model_files w !! Test.bert_model_dir = Some embed -> embedder w = embed.
Proof. intros Hm. unfold embedder, vector in *. by rewrite Hm. Qed.

End Plans.

(** ** The embedder's contract *)

Section EncodeShape.
Import Milvus.

Lemma encode_order embed sentences :
  length (encode embed sentences) = length sentences
  /\ forall i s, sentences !! i = Some s -> encode embed sentences !! i = Some (embed s).
Proof.
  unfold encode. split; [apply length_map|].
  induction sentences as [|s0 ss IH]; intros [|i] s Hs; cbn in *; simplify_eq; [done|].
  by apply IH.
Qed.

(** C1, as the code has it.  In every run of either script that reaches its
    end, the model directory holds a model; for every list of strings
    [encode] returns as many vectors as there are strings, the i-th being
    the model's embedding of the i-th string.  Every [encode] call of the
    run returned ([embed.py] encodes its three sentences, [test.py] its three
    sentences and then ["pera"]), and each vector it returned has exactly 384
    entries: the run would have ended at the insert otherwise. *)
Theorem encode_shape (w : World) (script : Prog unit) (inputs : list (list string)) :
  (script, inputs) = (Embed.script, [Embed.sentences])
  \/ (script, inputs) = (Test.script, [Test.sentences; ["pera"]]) ->
  completes (run lib script w) ->
  (forall sentences : list string,
     exists vs,
       lib (Encode Test.bert_model_dir sentences) w = (Ok vs, w)
       /\ length vs = length sentences
       /\ forall i s, sentences !! i = Some s -> vs !! i = Some (embedder w s))
  /\ count_calls is_encode (log_of (run lib script w))
     = length (encoded (log_of (run lib script w)))
  /\ map (fun x => x.1.2) (encoded (log_of (run lib script w))) = inputs
  /\ Forall (fun x =>
               x.1.1 = Test.bert_model_dir
               /\ x.2 = encode (embedder w) x.1.2
               /\ length x.2 = length x.1.2
               /\ Forall (fun v => length v = 384%nat) x.2)
            (encoded (log_of (run lib script w))).
Proof.
  intros [[= -> ->] | [= -> ->]] Hdone.
  - destruct (embed_completed w Hdone) as (uri & token & embed & Hplan & Hrun). rewrite Hrun.
    apply embed_plan_inv in Hplan as (_ & _ & _ & Hm & _ & Hdim).
    rewrite (embedder_model w embed Hm).
    unfold log_of; cbn [fst snd]. split.
    { intros sentences. exists (encode embed sentences).
      cbn [lib]. unfold model_encode.
      change Test.bert_model_dir with EmbedRun.model_dir. rewrite Hm.
      split; [reflexivity|]. apply encode_order. }
    assert (Henc : encoded (EmbedRun.run_log w uri token embed)
                   = [(Test.bert_model_dir, Embed.sentences, encode embed Embed.sentences)]).
    { unfold EmbedRun.run_log. by destruct (EmbedRun.existed w). }
    rewrite Henc. split.
    { unfold EmbedRun.run_log. by destruct (EmbedRun.existed w). }
    split; [reflexivity|]. constructor; [|constructor]. cbn [fst snd].
    split; [reflexivity|]. split; [reflexivity|]. split; [apply encode_order|exact Hdim].
  - destruct (test_lib_completed w Hdone) as (uri & token & embed & Hplan & Hrun). rewrite Hrun.
    apply test_plan_inv in Hplan as (_ & _ & _ & Hm & Hdim).
    rewrite (embedder_model w embed Hm).
    unfold log_of; cbn [fst snd]. split.
    { intros sentences. exists (encode embed sentences).
      cbn [lib]. unfold model_encode. rewrite Hm.
      split; [reflexivity|]. apply encode_order. }
    change (TestRun.log _ _ _ _ _ _) with (TestRun.run_log false w uri token embed).
    assert (Henc : encoded (TestRun.run_log false w uri token embed)
                   = [(Test.bert_model_dir, Test.sentences, encode embed Test.sentences);
                      (Test.bert_model_dir, ["pera"], encode embed ["pera"])]).
    { unfold TestRun.run_log.
      by destruct (TestRun.existed w), (winner_cases w embed) as [-> | [-> | ->]]. }
    rewrite Henc. split.
    { unfold TestRun.run_log.
      by destruct (TestRun.existed w), (winner_cases w embed) as [-> | [-> | ->]]. }
    split; [reflexivity|].
    assert (Hpera : length (embed "pera") = 384%nat).
    { cbn in Hdim. inversion Hdim as [|? ? _ Hdim1]; subst.
      by inversion Hdim1 as [|? ? H1 _]; subst. }
    constructor; [|constructor; [|constructor]]; cbn [fst snd].
    + split; [reflexivity|]. split; [reflexivity|]. split; [apply encode_order|exact Hdim].
    + split; [reflexivity|]. split; [reflexivity|]. split; [reflexivity|].
      by constructor.
Qed.

Lemma encode_shape_witness :
  (forall sentences : list string,
     exists vs,
       lib (Encode Test.bert_model_dir sentences) Demo.world = (Ok vs, Demo.world)
       /\ length vs = length sentences
       /\ forall i s, sentences !! i = Some s -> vs !! i = Some (embedder Demo.world s))
  /\ count_calls is_encode (log_of (run lib Test.script Demo.world))
     = length (encoded (log_of (run lib Test.script Demo.world)))
  /\ map (fun x => x.1.2) (encoded (log_of (run lib Test.script Demo.world)))
     = [Test.sentences; ["pera"]]
  /\ Forall (fun x =>
               x.1.1 = Test.bert_model_dir
               /\ x.2 = encode (embedder Demo.world) x.1.2
               /\ length x.2 = length x.1.2
               /\ Forall (fun v => length v = 384%nat) x.2)
            (encoded (log_of (run lib Test.script Demo.world))).
Proof.
  apply (encode_shape Demo.world Test.script [Test.sentences; ["pera"]]).
  - right. reflexivity.
  - exists tt. vm_compute. reflexivity.
Defined.

(** C1, as the spec words it, fails: what [encode] returns has the length
    the model in the model directory gives it.  With the model of
    [Demo.short_world] there, [encode] returns vectors of three entries, for
    the sentences of [test.py] as for any others, and [test.py] ends at its
    insert, the entities refused. *)
Lemma encode_other_dimension :
  (exists vs,
     lib (Encode Test.bert_model_dir Test.sentences) Demo.short_world
       = (Ok vs, Demo.short_world)
     /\ length vs = length Test.sentences
     /\ map (@length Q) vs = [3; 3; 3]%nat)
  /\ exists msg,
       outcome_of (run lib Test.script Demo.short_world) = Raised (DataNotMatchException msg)
       /\ encoded (log_of (run lib Test.script Demo.short_world))
          = [(Test.bert_model_dir, Test.sentences, encode Demo.short Test.sentences)].
Proof.
  split.
  - eexists. split; [reflexivity|]. split; reflexivity.
  - eexists. split; vm_compute; reflexivity.
Qed.

End EncodeShape.

(** ** Reading the log of a completed run *)

Section Readings.
Import Milvus.

Lemma embed_log_inserted w uri token embed :
  inserted (EmbedRun.run_log w uri token embed)
  = [Rows (Embed.entities (encode embed Embed.sentences))].
Proof. unfold EmbedRun.run_log. by destruct (EmbedRun.existed w). Qed.

Lemma embed_log_manager w uri token embed :
  manager_calls "ristobot" (EmbedRun.run_log w uri token embed)
  = (HasCollection "ristobot"
     :: (if EmbedRun.existed w
         then [Collection "ristobot" None; CollDrop "ristobot"]
         else [])
     ++ [Collection "ristobot" (Some Embed.schema)])%list.
Proof. unfold EmbedRun.run_log. by destruct (EmbedRun.existed w). Qed.

Lemma embed_final_rows w uri token embed :
  visible_rows (EmbedRun.final_world w uri token embed) "ristobot"
  = Some (EmbedRun.stored (next_auto_id w) (encode embed Embed.sentences)).
Proof.
  unfold visible_rows, EmbedRun.final_world. cbn [collections].
  by rewrite lookup_insert_eq.
Qed.

Lemma test_log_inserted nothing w uri token embed :
  inserted (TestRun.run_log nothing w uri token embed)
  = [Columns (Test.entities (TestRun.word_counts w) (encode embed Test.sentences))].
Proof.
  unfold TestRun.run_log.
  destruct nothing; [by destruct (TestRun.existed w)|].
  by destruct (TestRun.existed w), (winner_cases w embed) as [-> | [-> | ->]].
Qed.

Lemma test_log_manager nothing w uri token embed :
  manager_calls "book" (TestRun.run_log nothing w uri token embed)
  = (HasCollection "book"
     :: (if TestRun.existed w then [DropCollection "book"] else [])
     ++ [Collection "book" (Some Test.schema)])%list.
Proof.
  unfold TestRun.run_log.
  destruct nothing; [by destruct (TestRun.existed w)|].
  by destruct (TestRun.existed w), (winner_cases w embed) as [-> | [-> | ->]].
Qed.

Lemma test_final_rows w embed log :
  visible_rows (TestRun.final_world w embed log) "book" = Some (TestRun.stored w embed).
Proof.
  unfold visible_rows, TestRun.final_world. cbn [collections].
  by rewrite lookup_insert_eq.
Qed.

Lemma test_log_search w uri token embed :
  search_vectors (TestRun.run_log false w uri token embed) = [[embed "pera"]]
  /\ search_results (TestRun.run_log false w uri token embed)
     = [[[TestRun.hit_for embed (TestRun.winner w embed)]]]
  /\ query_results (TestRun.run_log false w uri token embed)
     = [("book_id == " ++ str_of_int (Z.of_nat (TestRun.winner w embed)),
         [TestRun.answer w (TestRun.winner w embed)])].
Proof.
  unfold TestRun.run_log.
  by destruct (TestRun.existed w), (winner_cases w embed) as [-> | [-> | ->]].
Qed.

Lemma test_log_no_hits w uri token embed :
  search_vectors (TestRun.run_log true w uri token embed) = [[embed "pera"]]
  /\ search_results (TestRun.run_log true w uri token embed) = [[[]]]
  /\ query_results (TestRun.run_log true w uri token embed)
     = [("book_id == 0", [TestRun.answer w 0])]
  /\ count_calls is_hit_print (TestRun.run_log true w uri token embed) = 0%nat.
Proof. unfold TestRun.run_log. by destruct (TestRun.existed w). Qed.

End Readings.

(** ** Inserted vectors have the declared dimension *)

Section Dimension.
Import Milvus.

Lemma stored_vectors next vs :
  Forall (fun v => length v = 384%nat) vs ->
  Forall (fun r => exists v, vector_of "ristodata" r = Some v /\ length v = 384%nat)
         (EmbedRun.stored next vs).
Proof.
  intros Hvs. unfold EmbedRun.stored. generalize (EmbedRun.keys next vs).
  induction Hvs as [|v vs Hv _ IH]; intros [|k ks]; cbn [zip_with]; constructor; eauto.
Qed.

(** C7. In every run of either script that reaches its end, every float
    vector among the inserted entities, and every vector the collection then
    stores, has exactly the dimension the script's schema declares, 384. *)
Theorem inserted_dimension (w : World) (script : Prog unit) (schema : CollectionSchema)
  (cname field_name : string) :
  (script, schema, cname, field_name) = (Embed.script, Embed.schema, "ristobot", "ristodata")
  \/ (script, schema, cname, field_name) = (Test.script, Test.schema, "book", "book_intro") ->
  completes (run lib script w) ->
  declared_dim schema = Some 384%nat
  /\ Forall (fun data => Forall (fun v => Some (length v) = declared_dim schema)
                                (entity_vectors data))
            (inserted (log_of (run lib script w)))
  /\ exists rows,
       visible_rows (final (run lib script w)) cname = Some rows
       /\ Forall (fun r => exists v, vector_of field_name r = Some v
                                     /\ Some (length v) = declared_dim schema) rows.
Proof.
  intros [[= -> -> -> ->] | [= -> -> -> ->]] Hdone.
  - destruct (embed_completed w Hdone) as (uri & token & embed & Hplan & Hrun). rewrite Hrun.
    apply embed_plan_inv in Hplan as (_ & _ & _ & _ & _ & Hdim).
    unfold log_of, final; cbn [fst snd].
    change (declared_dim Embed.schema) with (Some 384%nat).
    split; [done|]. split.
    + rewrite embed_log_inserted.
      cbn in Hdim. inversion Hdim as [|? ? H0 Hdim1]; subst.
      inversion Hdim1 as [|? ? H1 Hdim2]; subst. inversion Hdim2 as [|? ? H2 _]; subst.
      cbn; repeat constructor; by f_equal.
    + rewrite embed_final_rows. eexists. split; [reflexivity|].
      eapply Forall_impl; [by apply stored_vectors|].
        intros r (v & Hv & Hlen). exists v. by rewrite Hlen.
  - destruct (test_lib_completed w Hdone) as (uri & token & embed & Hplan & Hrun). rewrite Hrun.
    apply test_plan_inv in Hplan as (_ & _ & _ & _ & Hdim).
    unfold log_of, final; cbn [fst snd].
    change (declared_dim Test.schema) with (Some 384%nat).
    split; [done|]. cbn in Hdim. inversion Hdim as [|? ? H0 Hdim1]; subst.
    inversion Hdim1 as [|? ? H1 Hdim2]; subst. inversion Hdim2 as [|? ? H2 _]; subst.
    split.
    + change (TestRun.log _ _ _ _ _ _) with (TestRun.run_log false w uri token embed).
      rewrite test_log_inserted.
      cbn; repeat constructor; by f_equal.
    + rewrite test_final_rows. eexists. split; [reflexivity|].
      repeat constructor; eexists; (split; [reflexivity|by f_equal]).
Qed.

Lemma inserted_dimension_witness :
  (declared_dim Embed.schema = Some 384%nat
   /\ Forall (fun data => Forall (fun v => Some (length v) = declared_dim Embed.schema)
                                 (entity_vectors data))
             (inserted (log_of (run lib Embed.script Demo.world)))
   /\ exists rows,
        visible_rows (final (run lib Embed.script Demo.world)) "ristobot" = Some rows
        /\ Forall (fun r => exists v, vector_of "ristodata" r = Some v
                                      /\ Some (length v) = declared_dim Embed.schema) rows)
  /\ (declared_dim Test.schema = Some 384%nat
      /\ Forall (fun data => Forall (fun v => Some (length v) = declared_dim Test.schema)
                                    (entity_vectors data))
                (inserted (log_of (run lib Test.script Demo.world)))
      /\ exists rows,
           visible_rows (final (run lib Test.script Demo.world)) "book" = Some rows
           /\ Forall (fun r => exists v, vector_of "book_intro" r = Some v
                                         /\ Some (length v) = declared_dim Test.schema) rows).
Proof.
  split.
  - apply (inserted_dimension Demo.world Embed.script Embed.schema "ristobot" "ristodata").
    + left. reflexivity.
    + exists tt. vm_compute. reflexivity.
  - apply (inserted_dimension Demo.world Test.script Test.schema "book" "book_intro").
    + right. reflexivity.
    + exists tt. vm_compute. reflexivity.
Defined.

End Dimension.

(** ** Resetting the collection *)

Section Reset.
Import Milvus.

Lemma embed_stored_supplied next a b c :
  length (EmbedRun.stored next [a; b; c]) = 3%nat
  /\ restrict ["ristodata"] (EmbedRun.stored next [a; b; c])
     = restrict ["ristodata"] (Embed.entities [a; b; c]).
Proof. split; reflexivity. Qed.

(** C2. In every run of either script that reaches its end, the collection
    manager is asked whether the target collection exists; exactly when it
    does, the collection is dropped ([Collection(name).drop()] in embed.py,
    [utility.drop_collection(name)] in test.py); then the collection is
    created with the script's schema.  Afterwards the server has a collection
    of that name with that schema, nothing pending, and its rows are the
    entities of the run's one insert, field by field. *)
Theorem reset_then_create (w : World) (script : Prog unit) (cname : string)
  (schema : CollectionSchema) (drops : list call) :
  (script, cname, schema, drops)
    = (Embed.script, "ristobot", Embed.schema,
       [Collection "ristobot" None; CollDrop "ristobot"])
  \/ (script, cname, schema, drops)
    = (Test.script, "book", Test.schema, [DropCollection "book"]) ->
  completes (run lib script w) ->
  In (returned (HasCollection cname) (bool_decide (is_Some (collections w !! cname))))
     (log_of (run lib script w))
  /\ manager_calls cname (log_of (run lib script w))
     = (HasCollection cname
        :: (if bool_decide (is_Some (collections w !! cname)) then drops else [])
        ++ [Collection cname (Some schema)])%list
  /\ exists c data supplied,
       collections (final (run lib script w)) !! cname = Some c
       /\ coll_schema c = schema
       /\ coll_pending c = []
       /\ inserted (log_of (run lib script w)) = [data]
       /\ rows_of (supplied_fields schema) data = Some supplied
       /\ length (coll_rows c) = length supplied
       /\ restrict (map name (supplied_fields schema)) (coll_rows c)
          = restrict (map name (supplied_fields schema)) supplied.
Proof.
  intros [[= -> -> -> ->] | [= -> -> -> ->]] Hdone.
  - destruct (embed_completed w Hdone) as (uri & token & embed & _ & Hrun). rewrite Hrun.
    unfold log_of, final; cbn [fst snd].
    rewrite embed_log_manager, embed_log_inserted. split; [|split; [done|]].
    + unfold EmbedRun.run_log, EmbedRun.log. apply in_app_iff. right.
      unfold EmbedRun.reset_log. left. reflexivity.
    + eexists _, _, _. split.
      { unfold EmbedRun.final_world. cbn [collections]. apply lookup_insert_eq. }
      cbn [coll_schema coll_pending coll_rows rows_of].
      repeat (split; [reflexivity|]). apply embed_stored_supplied.
  - destruct (test_lib_completed w Hdone) as (uri & token & embed & _ & Hrun). rewrite Hrun.
    unfold log_of, final; cbn [fst snd].
    change (TestRun.log _ _ _ _ _ _) with (TestRun.run_log false w uri token embed).
    rewrite test_log_manager, test_log_inserted. split; [|split; [done|]].
    + unfold TestRun.run_log, TestRun.log, TestRun.before_search.
      apply in_app_iff. left. apply in_app_iff. right. apply in_app_iff. left.
      left. reflexivity.
    + eexists _, _, _. split.
      { unfold TestRun.final_world. cbn [collections]. apply lookup_insert_eq. }
      cbn [coll_schema coll_pending coll_rows].
      repeat (split; [reflexivity|]). split; reflexivity.
Qed.

(** Both scripts on a server that holds their collections: the drop is
    made. *)
Lemma reset_then_create_witness :
  bool_decide (is_Some (collections Demo.stocked !! "ristobot")) = true
  /\ bool_decide (is_Some (collections Demo.stocked !! "book")) = true
  /\ (In (returned (HasCollection "ristobot")
                (bool_decide (is_Some (collections Demo.stocked !! "ristobot"))))
      (log_of (run lib Embed.script Demo.stocked))
   /\ manager_calls "ristobot" (log_of (run lib Embed.script Demo.stocked))
      = (HasCollection "ristobot"
         :: (if bool_decide (is_Some (collections Demo.stocked !! "ristobot"))
             then [Collection "ristobot" None; CollDrop "ristobot"] else [])
         ++ [Collection "ristobot" (Some Embed.schema)])%list
   /\ exists c data supplied,
        collections (final (run lib Embed.script Demo.stocked)) !! "ristobot" = Some c
        /\ coll_schema c = Embed.schema
        /\ coll_pending c = []
        /\ inserted (log_of (run lib Embed.script Demo.stocked)) = [data]
        /\ rows_of (supplied_fields Embed.schema) data = Some supplied
        /\ length (coll_rows c) = length supplied
        /\ restrict (map name (supplied_fields Embed.schema)) (coll_rows c)
           = restrict (map name (supplied_fields Embed.schema)) supplied)
  /\ (In (returned (HasCollection "book")
                (bool_decide (is_Some (collections Demo.stocked !! "book"))))
      (log_of (run lib Test.script Demo.stocked))
   /\ manager_calls "book" (log_of (run lib Test.script Demo.stocked))
      = (HasCollection "book"
         :: (if bool_decide (is_Some (collections Demo.stocked !! "book"))
             then [DropCollection "book"] else [])
         ++ [Collection "book" (Some Test.schema)])%list
   /\ exists c data supplied,
        collections (final (run lib Test.script Demo.stocked)) !! "book" = Some c
        /\ coll_schema c = Test.schema
        /\ coll_pending c = []
        /\ inserted (log_of (run lib Test.script Demo.stocked)) = [data]
        /\ rows_of (supplied_fields Test.schema) data = Some supplied
        /\ length (coll_rows c) = length supplied
        /\ restrict (map name (supplied_fields Test.schema)) (coll_rows c)
           = restrict (map name (supplied_fields Test.schema)) supplied).
Proof.
  split; [vm_compute; reflexivity|]. split; [vm_compute; reflexivity|]. split.
  - apply (reset_then_create Demo.stocked Embed.script "ristobot" Embed.schema
             [Collection "ristobot" None; CollDrop "ristobot"]).
    + left. reflexivity.
    + exists tt. vm_compute. reflexivity.
  - apply (reset_then_create Demo.stocked Test.script "book" Test.schema
             [DropCollection "book"]).
    + right. reflexivity.
    + exists tt. vm_compute. reflexivity.
Defined.

End Reset.

(** ** The query after the search *)

Section QueryAfterSearch.
Import Milvus.

(** C4. In every run of [test.py] that reaches its end, the search returned
    one hit, the query that follows filters on ["book_id == <id of that hit>"]
    and asks for [book_id], [word_count] and [sentence]; it returns exactly one
    row, and that row carries, for the position [i] at which the hit's id
    stands in the inserted [book_id] column, the values at position [i] of the
    inserted [book_id], [word_count] and [sentence] columns. *)
Theorem query_returns_inserted_row (w : World) :
  completes (run lib Test.script w) ->
  exists (h : Hit) (i : nat) (ids wcs intros sents : list value) (wc s : value),
    search_results (log_of (run lib Test.script w)) = [[[h]]]
    /\ In (QueryExpr "book" ("book_id == " ++ str_of_int (id h))
                     ["book_id"; "word_count"; "sentence"])
          (calls (log_of (run lib Test.script w)))
    /\ inserted (log_of (run lib Test.script w)) = [Columns [ids; wcs; intros; sents]]
    /\ ids !! i = Some (VInt (id h))
    /\ wcs !! i = Some wc
    /\ sents !! i = Some s
    /\ query_results (log_of (run lib Test.script w))
       = [("book_id == " ++ str_of_int (id h),
           [[("book_id", VInt (id h)); ("word_count", wc); ("sentence", s)]])].
Proof.
  intros Hdone.
  destruct (test_lib_completed w Hdone) as (uri & token & embed & _ & Hrun). rewrite Hrun.
  unfold log_of; cbn [fst snd].
  change (TestRun.log _ _ _ _ _ _) with (TestRun.run_log false w uri token embed).
  destruct (test_log_search w uri token embed) as (_ & -> & ->).
  rewrite test_log_inserted.
  assert (Hquery : In (QueryExpr "book"
                         ("book_id == " ++ str_of_int (Z.of_nat (TestRun.winner w embed)))
                         ["book_id"; "word_count"; "sentence"])
                      (calls (TestRun.run_log false w uri token embed))).
  { unfold TestRun.run_log, TestRun.log, calls. rewrite !map_app, !in_app_iff.
    right. right. right. left. reflexivity. }
  revert Hquery.
  destruct (winner_cases w embed) as [E | [E | E]]; rewrite E; intros Hquery;
    [ exists (TestRun.hit_for embed 0), 0%nat
    | exists (TestRun.hit_for embed 1), 1%nat
    | exists (TestRun.hit_for embed 2), 2%nat ];
    eexists _, _, _, _, _, _; (split; [reflexivity|]); (split; [exact Hquery|]);
    by repeat split.
Qed.

Lemma query_returns_inserted_row_witness :
  exists (h : Hit) (i : nat) (ids wcs intros sents : list value) (wc s : value),
    search_results (log_of (run lib Test.script Demo.world)) = [[[h]]]
    /\ In (QueryExpr "book" ("book_id == " ++ str_of_int (id h))
                     ["book_id"; "word_count"; "sentence"])
          (calls (log_of (run lib Test.script Demo.world)))
    /\ inserted (log_of (run lib Test.script Demo.world)) = [Columns [ids; wcs; intros; sents]]
    /\ ids !! i = Some (VInt (id h))
    /\ wcs !! i = Some wc
    /\ sents !! i = Some s
    /\ query_results (log_of (run lib Test.script Demo.world))
       = [("book_id == " ++ str_of_int (id h),
           [[("book_id", VInt (id h)); ("word_count", wc); ("sentence", s)]])].
Proof.
  apply (query_returns_inserted_row Demo.world).
  exists tt. vm_compute. reflexivity.
Defined.

End QueryAfterSearch.

(** ** A search without hits *)

Section NoHits.
Import Milvus.

(** C8. Where a run of [test.py] against the reference library reaches its
    end, the run against the same library with a search that finds nothing
    reaches its end as well: no call raises, none of the lines of the
    hit-resolution loop is printed, and the query that follows asks for
    [matched_book_id]'s initial value, ["book_id == 0"]. *)
Theorem no_hits_is_no_error (w : World) :
  completes (run lib Test.script w) ->
  completes (run (finding_nothing lib) Test.script w)
  /\ search_results (log_of (run (finding_nothing lib) Test.script w)) = [[[]]]
  /\ count_calls is_hit_print (log_of (run (finding_nothing lib) Test.script w)) = 0%nat
  /\ Forall (fun x => failure x = None) (log_of (run (finding_nothing lib) Test.script w))
  /\ map fst (query_results (log_of (run (finding_nothing lib) Test.script w)))
     = ["book_id == 0"].
Proof.
  intros Hdone.
  destruct (test_lib_completed w Hdone) as (uri & token & embed & Hplan & _).
  pose proof (test_ready true w uri token embed Hplan) as Hrun.
  change (TestRun.library true) with (finding_nothing lib) in Hrun. rewrite Hrun.
  unfold log_of; cbn [fst snd].
  destruct (test_log_no_hits w uri token embed) as (_ & -> & -> & ->).
  split; [by exists tt|]. repeat (split; [reflexivity|]). split; [|reflexivity].
  unfold TestRun.run_log, TestRun.log_no_hits, TestRun.before_search.
  destruct (TestRun.existed w); cbn [app TestRun.reset_log]; repeat constructor.
Qed.

Lemma no_hits_is_no_error_witness :
  completes (run (finding_nothing lib) Test.script Demo.world)
  /\ search_results (log_of (run (finding_nothing lib) Test.script Demo.world)) = [[[]]]
  /\ count_calls is_hit_print (log_of (run (finding_nothing lib) Test.script Demo.world))
     = 0%nat
  /\ Forall (fun x => failure x = None)
            (log_of (run (finding_nothing lib) Test.script Demo.world))
  /\ map fst (query_results (log_of (run (finding_nothing lib) Test.script Demo.world)))
     = ["book_id == 0"].
Proof.
  apply (no_hits_is_no_error Demo.world).
  exists tt. vm_compute. reflexivity.
Defined.

End NoHits.

(** ** The search hit *)

Section SearchHit.
Import Milvus.

Lemma square_nonneg (x y : Q) : (0 <= (x - y) * (x - y))%Q.
Proof.
  destruct (Qlt_le_dec (x - y) 0) as [Hneg | Hpos].
  - assert (E : ((x - y) * (x - y) == (- (x - y)) * (- (x - y)))%Q) by ring.
    rewrite E.
    apply Qmult_le_0_compat; lra.
  - by apply Qmult_le_0_compat.
Qed.

Lemma square_pos (x y : Q) : ~ (x == y)%Q -> (0 < (x - y) * (x - y))%Q.
Proof.
  intros Hne. destruct (Q_dec x y) as [[Hlt | Hgt] | Heq]; [| |done].
  - assert (E : ((x - y) * (x - y) == (- (x - y)) * (- (x - y)))%Q) by ring.
    rewrite E.
    apply Qmult_lt_0_compat; lra.
  - apply Qmult_lt_0_compat; lra.
Qed.

Lemma l2_cons x a y b : l2 (x :: a) (y :: b) = ((x - y) * (x - y) + l2 a b)%Q.
Proof. reflexivity. Qed.

Lemma l2_nonneg a b : (0 <= l2 a b)%Q.
Proof.
  revert b. induction a as [|x a IH]; intros [|y b]; try (cbn; lra).
  rewrite l2_cons. pose proof (square_nonneg x y). specialize (IH b). lra.
Qed.

(** A vector is at distance 0 from itself. *)
Lemma l2_self a : (l2 a a == 0)%Q.
Proof.
  induction a as [|x a IH]; [reflexivity|]. rewrite l2_cons, IH. ring.
Qed.

(** Two vectors of one length that differ somewhere are at a positive distance. *)
Lemma l2_pos a b :
  length a = length b -> ~ same_vector a b -> (0 < l2 a b)%Q.
Proof.
  revert b. induction a as [|x a IH]; intros [|y b] Hlen Hne; try discriminate.
  - exfalso. apply Hne. constructor.
  - rewrite l2_cons. injection Hlen as Hlen.
    pose proof (square_nonneg x y). pose proof (l2_nonneg a b).
    destruct (Qeq_dec x y) as [Heq | Hxy].
    + assert (0 < l2 a b)%Q; [|lra].
      apply IH; [done|]. intros Hsame. apply Hne. by constructor.
    + pose proof (square_pos x y Hxy). lra.
Qed.

Lemma ranks_before_lt tie h x :
  (distance h < distance x)%Q -> ranks_before tie h x = true.
Proof.
  intros Hlt. unfold ranks_before.
  destruct (Qle_bool (distance h) (distance x)) eqn:Hhx.
  - destruct (Qle_bool (distance x) (distance h)) eqn:Hxh; [|done].
    apply Qle_bool_iff in Hxh. lra.
  - apply not_true_iff_false in Hhx. exfalso. apply Hhx, Qle_bool_iff. lra.
Qed.

Lemma ranks_before_gt tie h x :
  (distance x < distance h)%Q -> ranks_before tie h x = false.
Proof.
  intros Hlt. unfold ranks_before.
  destruct (Qle_bool (distance h) (distance x)) eqn:Hhx; [|done].
  apply Qle_bool_iff in Hhx. lra.
Qed.

(** With the embedding of "pera" apart from those of "mela" and "banana",
    row 1 alone is at distance 0 and the search of [test.py] ranks it first,
    however the server orders hits at equal distance. *)
Lemma winner_pera w embed :
  length (embed "pera") = length (embed "mela") ->
  length (embed "pera") = length (embed "banana") ->
  ~ same_vector (embed "pera") (embed "mela") ->
  ~ same_vector (embed "pera") (embed "banana") ->
  TestRun.winner w embed = 1%nat.
Proof.
  intros Hlen0 Hlen2 Hne0 Hne2. unfold TestRun.winner. rewrite found_hits.
  pose proof (l2_pos _ _ Hlen0 Hne0) as Hpos0.
  pose proof (l2_pos _ _ Hlen2 Hne2) as Hpos2.
  pose proof (l2_self (embed "pera")) as Hself.
  unfold rank. cbn [fold_right rank_insert].
  rewrite (ranks_before_lt _ (TestRun.hit_for embed 1) (TestRun.hit_for embed 2))
    by (cbn [TestRun.hit_for distance nth Test.sentences]; lra).
  cbn [rank_insert].
  rewrite (ranks_before_gt _ (TestRun.hit_for embed 0) (TestRun.hit_for embed 1))
    by (cbn [TestRun.hit_for distance nth Test.sentences]; lra).
  reflexivity.
Qed.

End SearchHit.

Section SearchForPera.
Import Milvus.

Lemma embedder_plan w uri token embed :
  TestRun.plan w = Some (uri, token, embed) ->
  embedder w = embed
  /\ length (embed "mela") = 384%nat
  /\ length (embed "pera") = 384%nat
  /\ length (embed "banana") = 384%nat.
Proof.
  intros (_ & _ & _ & Hm & Hdim)%test_plan_inv. split.
  - unfold embedder, vector in *. by rewrite Hm.
  - cbn in Hdim. inversion Hdim as [|? ? H0 Hdim1]; subst.
    inversion Hdim1 as [|? ? H1 Hdim2]; subst. by inversion Hdim2 as [|? ? H2 _]; subst.
Qed.

(** C3, as the code has it.  In every run of [test.py] that reaches its end
    with a model whose embedding of "pera" differs from its embeddings of
    "mela" and "banana": the one search call has limit 1 and its query vector
    is the model's embedding of "pera", the very vector inserted at position
    1 next to book_id 1 and the sentence "pera"; the search answers with
    exactly one hit, whose id is 1 and whose distance is 0, and which
    [id_sentence_map] resolves to "pera". *)
Theorem search_finds_pera (w : World) :
  completes (run lib Test.script w) ->
  ~ same_vector (embedder w "pera") (embedder w "mela") ->
  ~ same_vector (embedder w "pera") (embedder w "banana") ->
  exists (h : Hit) (ids wcs intros sents : list value),
    In (SearchVectors "book" [embedder w "pera"] "book_intro" Test.search_params 1 1)
       (calls (log_of (run lib Test.script w)))
    /\ search_vectors (log_of (run lib Test.script w)) = [[embedder w "pera"]]
    /\ inserted (log_of (run lib Test.script w)) = [Columns [ids; wcs; intros; sents]]
    /\ ids !! 1%nat = Some (VInt 1)
    /\ intros !! 1%nat = Some (VVec (embedder w "pera"))
    /\ sents !! 1%nat = Some (VStr "pera")
    /\ search_results (log_of (run lib Test.script w)) = [[[h]]]
    /\ id h = 1
    /\ (distance h == 0)%Q
    /\ Test.id_sentence_map !! id h = Some "pera".
Proof.
  intros Hdone Hmela Hbanana.
  destruct (test_lib_completed w Hdone) as (uri & token & embed & Hplan & Hrun). rewrite Hrun.
  destruct (embedder_plan w uri token embed Hplan) as (Hembed & Hlen0 & Hlen1 & Hlen2).
  rewrite Hembed in *.
  assert (Hwin : TestRun.winner w embed = 1%nat).
  { apply winner_pera; [congruence|congruence|done|done]. }
  unfold log_of; cbn [fst snd]. rewrite Hwin.
  change (TestRun.log w uri token (TestRun.existed w) embed 1)
    with (TestRun.log w uri token (TestRun.existed w) embed (S 0)).
  exists (TestRun.hit_for embed 1). eexists _, _, _, _.
  split.
  { unfold TestRun.log, calls. rewrite !map_app, !in_app_iff.
    right. left. left. reflexivity. }
  split; [by destruct (TestRun.existed w)|].
  split; [by destruct (TestRun.existed w)|].
  do 3 (split; [reflexivity|]).
  split; [by destruct (TestRun.existed w)|].
  split; [reflexivity|]. split; [|reflexivity].
  apply l2_self.
Qed.

Lemma search_finds_pera_witness :
  exists (h : Hit) (ids wcs intros sents : list value),
    In (SearchVectors "book" [embedder Demo.world "pera"] "book_intro" Test.search_params 1 1)
       (calls (log_of (run lib Test.script Demo.world)))
    /\ search_vectors (log_of (run lib Test.script Demo.world))
       = [[embedder Demo.world "pera"]]
    /\ inserted (log_of (run lib Test.script Demo.world))
       = [Columns [ids; wcs; intros; sents]]
    /\ ids !! 1%nat = Some (VInt 1)
    /\ intros !! 1%nat = Some (VVec (embedder Demo.world "pera"))
    /\ sents !! 1%nat = Some (VStr "pera")
    /\ search_results (log_of (run lib Test.script Demo.world)) = [[[h]]]
    /\ id h = 1
    /\ (distance h == 0)%Q
    /\ Test.id_sentence_map !! id h = Some "pera".
Proof.
  apply (search_finds_pera Demo.world).
  - exists tt. vm_compute. reflexivity.
  - vm_compute. intros Hsame. inversion Hsame as [|? ? ? ? Hq _]. discriminate Hq.
  - vm_compute. intros Hsame. inversion Hsame as [|? ? ? ? Hq _]. discriminate Hq.
Defined.

(** C3, as the spec words it, fails: it takes a model that tells "pera"
    apart.  On [Demo.flat_world] the model embeds "mela" and "pera" to the
    same vector and the server ranks, of two hits at the same distance, the
    one with the smaller key first: [test.py] reaches its end, the one hit of
    its search for "pera" is row 0 at distance 0, the matched sentence it
    prints is "mela", and it queries [book_id == 0]. *)
Lemma search_tie_finds_mela :
  completes (run lib Test.script Demo.flat_world)
  /\ embedder Demo.flat_world "pera" = embedder Demo.flat_world "mela"
  /\ search_vectors (log_of (run lib Test.script Demo.flat_world))
     = [[embedder Demo.flat_world "pera"]]
  /\ search_results (log_of (run lib Test.script Demo.flat_world)) = [[[mkHit 0 0]]]
  /\ In [FLit "Matched Sentence: "; FLit "mela"]
        (printed_lines (log_of (run lib Test.script Demo.flat_world)))
  /\ map fst (query_results (log_of (run lib Test.script Demo.flat_world)))
     = ["book_id == 0"].
Proof.
  split; [exists tt; vm_compute; reflexivity|].
  split; [reflexivity|].
  split; [vm_compute; reflexivity|].
  split; [vm_compute; reflexivity|].
  split; [|vm_compute; reflexivity].
  vm_compute. auto 60.
Qed.

End SearchForPera.

(** ** Running a script twice *)

Section Rerun.
Import Milvus.

Lemma embed_plan_final w uri token embed :
  EmbedRun.plan (EmbedRun.final_world w uri token embed) = EmbedRun.plan w.
Proof. reflexivity. Qed.

Lemma test_plan_final w embed log :
  TestRun.plan (TestRun.final_world w embed log) = TestRun.plan w.
Proof. reflexivity. Qed.

(** C5, as the code has it.  Where a run of either script reaches its end, a
    second run from the state the first one left reaches its end too, and
    the collection then has as many rows as after the first run, three, with
    the same [book_id], [book_intro] and [sentence] (test.py), the same
    [ristodata] (embed.py), row by row.  The fields left out, [word_count]
    and the generated [id], are drawn anew by each run. *)
Theorem rerun_same_sentences (w : World) (script : Prog unit) (cname : string)
  (kept : list string) :
  (script, cname, kept) = (Embed.script, "ristobot", ["ristodata"])
  \/ (script, cname, kept) = (Test.script, "book", ["book_id"; "book_intro"; "sentence"]) ->
  completes (run lib script w) ->
  completes (run lib script (final (run lib script w)))
  /\ exists rows1 rows2,
       visible_rows (final (run lib script w)) cname = Some rows1
       /\ visible_rows (final (run lib script (final (run lib script w)))) cname = Some rows2
       /\ length rows1 = 3%nat
       /\ length rows2 = 3%nat
       /\ restrict kept rows1 = restrict kept rows2.
Proof.
  intros [[= -> -> ->] | [= -> -> ->]] Hdone.
  - destruct (embed_completed w Hdone) as (uri & token & embed & Hplan & Hrun). rewrite Hrun.
    unfold final; cbn [fst snd].
    rewrite <- (embed_plan_final w uri token embed) in Hplan.
    rewrite (embed_ready _ uri token embed Hplan). cbn [fst snd].
    split; [by exists tt|].
    rewrite !embed_final_rows. eexists _, _. do 2 (split; [reflexivity|]).
    change (encode embed Embed.sentences)
      with [embed "This is an example sentence"; embed "Each string here gets embedded";
            embed "The embeddings can then be indexed using Milvus"].
    split; [apply embed_stored_supplied|]. split; [apply embed_stored_supplied|].
    by rewrite !(proj2 (embed_stored_supplied _ _ _ _)).
  - destruct (test_lib_completed w Hdone) as (uri & token & embed & Hplan & Hrun). rewrite Hrun.
    unfold final; cbn [fst snd].
    rewrite <- (test_plan_final w embed
                  (TestRun.log w uri token (TestRun.existed w) embed (TestRun.winner w embed)))
      in Hplan.
    rewrite (test_lib_ready _ uri token embed Hplan). cbn [fst snd].
    split; [by exists tt|].
    rewrite !test_final_rows. eexists _, _. do 2 (split; [reflexivity|]).
    by repeat split.
Qed.

Lemma rerun_same_sentences_witness :
  completes (run lib Test.script (final (run lib Test.script Demo.world)))
  /\ exists rows1 rows2,
       visible_rows (final (run lib Test.script Demo.world)) "book" = Some rows1
       /\ visible_rows (final (run lib Test.script (final (run lib Test.script Demo.world))))
                       "book" = Some rows2
       /\ length rows1 = 3%nat
       /\ length rows2 = 3%nat
       /\ restrict ["book_id"; "book_intro"; "sentence"] rows1
          = restrict ["book_id"; "book_intro"; "sentence"] rows2.
Proof.
  apply (rerun_same_sentences Demo.world Test.script "book"
           ["book_id"; "book_intro"; "sentence"]).
  - right. reflexivity.
  - exists tt. vm_compute. reflexivity.
Defined.

(** C5, as the spec words it, fails: [test.py] run twice on [Demo.world]
    reaches its end both times, but the rows of "book" after the first run
    carry the word counts 1, 38, 75 and after the second run 12, 49, 86, so
    the final contents are not the same. *)
Lemma rerun_changes_word_counts :
  completes (run lib Test.script Demo.world)
  /\ completes (run lib Test.script (final (run lib Test.script Demo.world)))
  /\ restrict ["word_count"]
       <$> visible_rows (final (run lib Test.script Demo.world)) "book"
     = Some [[Some (VInt 1)]; [Some (VInt 38)]; [Some (VInt 75)]]
  /\ restrict ["word_count"]
       <$> visible_rows (final (run lib Test.script (final (run lib Test.script Demo.world))))
                        "book"
     = Some [[Some (VInt 12)]; [Some (VInt 49)]; [Some (VInt 86)]]
  /\ visible_rows (final (run lib Test.script Demo.world)) "book"
     <> visible_rows (final (run lib Test.script (final (run lib Test.script Demo.world))))
                     "book".
Proof.
  assert (H1 : restrict ["word_count"]
                 <$> visible_rows (final (run lib Test.script Demo.world)) "book"
               = Some [[Some (VInt 1)]; [Some (VInt 38)]; [Some (VInt 75)]]).
  { vm_compute. reflexivity. }
  assert (H2 : restrict ["word_count"]
                 <$> visible_rows
                       (final (run lib Test.script (final (run lib Test.script Demo.world))))
                       "book"
               = Some [[Some (VInt 12)]; [Some (VInt 49)]; [Some (VInt 86)]]).
  { vm_compute. reflexivity. }
  split; [exists tt; vm_compute; reflexivity|].
  split; [exists tt; vm_compute; reflexivity|].
  split; [exact H1|]. split; [exact H2|].
  intros Heq. rewrite Heq, H2 in H1. discriminate H1.
Qed.

End Rerun.

(** * Further properties of the two scripts *)

(** ** When the scripts reach their end *)

Section Completion.
Import Milvus.





End Completion.

(** ** Failing before the server is reached *)

Section ConfigErrors.
Import Milvus.








End ConfigErrors.

(** ** The second argument of [collection.insert] in embed.py *)

Section EmbedInsert.
Import Milvus.



End EmbedInsert.

(** ** The loops of test.py, whatever the library answers *)

Section Loops.
Context {W : Type} (h : handler W).


Lemma count_calls_app p l1 l2 :
  count_calls p (l1 ++ l2) = (count_calls p l1 + count_calls p l2)%nat.
Proof. unfold count_calls, calls. by rewrite map_app, List.filter_app, length_app. Qed.

(** [print] and [connections.disconnect] return. *)
Hypothesis print_returns : forall line w, exists w', h (Print line) w = (Ok tt, w').
Hypothesis disconnect_returns : forall alias w, exists w', h (Disconnect alias) w = (Ok tt, w').






End Loops.

Section LoopsWitnesses.
Import Milvus.







End LoopsWitnesses.

(** ** The data test.py prepares *)

Section TestData.
Import Milvus.






End TestData.

(** ** The search, whatever the model *)

Section SearchAnyModel.
Import Milvus.










End SearchAnyModel.

(** ** What a completed run leaves on the server *)

Section Server.
Import Milvus.









End Server.

(** ** The filter expression *)

Section FilterExpression.
Import Milvus.




End FilterExpression.

(** ** What the scripts print and time *)

Section Printing.
Import Milvus.





End Printing.
